(** * Stock-analysis worker (python-stock-agent/src/entry.py)

    A shallow embedding of the worker's request router, orchestrator, quote
    fetcher, news fetcher and report notifier, and the properties of the
    specification that are stated about them.

    Conventions of the embedding.
    - A Python [str] is a list of Unicode code points ([str]); [u "..."]
      embeds an ASCII literal of the source.
    - The values the worker handles are the values [json] decoding yields
      ([pyval]): None, bool, int, float, str, list, dict.  A dict is an
      association list in insertion order.
    - Exceptions are values ([exn]) carrying their class and their [str()];
      a computation returns [result A = exn + A].  The wording of the
      messages the interpreter itself produces (TypeError and the like)
      follows CPython; no statement below depends on it.
    - [await fetch(...)] is an effect: a computation of type [M A] reads the
      upstream behaviour ([world]) and appends every outbound request to a
      trace.  A request is its URL, its method and its body; headers are
      left out.  Log lines are not part of the model (they have no result).
    - Float arithmetic, [repr], [hash], the clock and the static dashboard
      page are the interpreter's and the deployment's: they are fields of
      the class [PyRuntime], and every general statement holds for all of
      its instances. *)

From Stdlib Require Import ZArith NArith List String Ascii Bool Lia DecimalString.
Import ListNotations.
Local Open Scope Z_scope.
Local Open Scope list_scope.
Set Warnings "-register-all".

(** ** Python strings *)

Definition codepoint := N.
Definition str := list codepoint.

Definition u (s : string) : str := map N_of_ascii (list_ascii_of_string s).
Arguments u s%_string.

Definition nl : codepoint := 10%N.
Definition dquote : codepoint := 34%N.
Definition backslash : codepoint := 92%N.

Fixpoint str_eqb (a b : str) : bool :=
  match a, b with
  | [], [] => true
  | x :: a', y :: b' => N.eqb x y && str_eqb a' b'
  | _, _ => false
  end.

(** [s.startswith(p)] *)
Fixpoint is_prefix (p s : str) : bool :=
  match p, s with
  | [], _ => true
  | x :: p', y :: s' => N.eqb x y && is_prefix p' s'
  | _ :: _, [] => false
  end.

(** [p in s] *)
Fixpoint is_substring (p s : str) : bool :=
  is_prefix p s ||
  match s with
  | [] => false
  | _ :: s' => is_substring p s'
  end.

(** [s.split(sep)] for a one-character separator. *)
Fixpoint split_on (sep : codepoint) (s : str) : list str :=
  match s with
  | [] => [[]]
  | c :: s' =>
      if N.eqb c sep then [] :: split_on sep s'
      else match split_on sep s' with
           | w :: ws => (c :: w) :: ws
           | [] => [[c]]
           end
  end.

(** [sep.join(parts)] *)
Fixpoint join (sep : str) (parts : list str) : str :=
  match parts with
  | [] => []
  | [p] => p
  | p :: rest => p ++ sep ++ join sep rest
  end.

(** [str(n)] for an int. *)
Definition dec (z : Z) : str := u (NilZero.string_of_int (Z.to_int z)).

Definition hex_digit (n : N) : codepoint :=
  if (n <? 10)%N then (48 + n)%N else (87 + n)%N.

(** Four lower-case hex digits, as in a [\uXXXX] escape. *)
Definition hex4 (n : N) : str :=
  [hex_digit ((n / 4096) mod 16); hex_digit ((n / 256) mod 16);
   hex_digit ((n / 16) mod 16); hex_digit (n mod 16)]%N.

(** ** Exceptions *)

Inductive exn_class :=
| ValueError | TypeError | KeyError | IndexError | AttributeError
| ZeroDivisionError | OverflowError | OtherError.

Record exn := Exn { exn_cls : exn_class; exn_str : str }.

Definition result (A : Type) : Type := (exn + A)%type.

Definition rret {A} (a : A) : result A := inr a.
Definition rraise {A} (c : exn_class) (msg : str) : result A := inl (Exn c msg).
Definition rbind {A B} (m : result A) (k : A -> result B) : result B :=
  match m with
  | inl e => inl e
  | inr a => k a
  end.

Notation "'let?' x ':=' m 'in' k" := (rbind m (fun x => k))
  (at level 10, x name, m at level 100, k at level 200).

(** ** Values, replies and the environment, over a type of floats *)

Section Values.
Context {F : Type}.

(** The values [json] decoding yields. *)
Inductive pyval_of :=
| PyNone
| PyBool (b : bool)
| PyInt (z : Z)
| PyFloat (f : F)
| PyStr (s : str)
| PyList (l : list pyval_of)
| PyDict (kv : list (str * pyval_of)).

(** What [await fetch(...)] hands back: the status line, and what
    [await r.text()] and [await r.json()] give (or raise). *)
Record response_of := Response {
  status : Z;
  status_text : str;
  body_text : result str;
  body_json : result pyval_of
}.

(** The worker's [env]: an attribute is [None] when [hasattr(env, ...)] is
    false. *)
Record env_of := Env {
  SWARMS_API_KEY : option pyval_of;
  FMP_API_KEY : option pyval_of;
  MAILGUN_API_KEY : option pyval_of;
  MAILGUN_DOMAIN : option pyval_of;
  RECIPIENT_EMAIL : option pyval_of
}.

End Values.

Arguments pyval_of : clear implicits.
Arguments response_of : clear implicits.
Arguments env_of : clear implicits.

(** ** The interpreter and deployment parameters *)

Class PyRuntime := {
  (** Python's float *)
  flt : Type;
  (** [float(n)]; [None] is OverflowError *)
  flt_of_int : Z -> option flt;
  (** [float(s)] for a str; [None] is ValueError *)
  flt_of_str : str -> option flt;
  (** [x == 0.0] *)
  flt_is_zero : flt -> bool;
  flt_sub : flt -> flt -> flt;
  flt_mul : flt -> flt -> flt;
  (** [x / y] for a non-zero [y] *)
  flt_div : flt -> flt -> flt;
  (** [a / b] for ints, [b <> 0]; [None] is OverflowError *)
  int_truediv : Z -> Z -> option flt;
  (** [round(x, 2)] *)
  flt_round2 : flt -> flt;
  (** [abs(x) > 2] *)
  flt_abs_gt2 : flt -> bool;
  (** the float a literal [d.ddd] of the source denotes: [digits * 10^-places] *)
  flt_literal : Z -> nat -> flt;
  (** [repr(x)] *)
  flt_repr : flt -> str;
  (** the text [json.dumps] writes for a float *)
  flt_json : flt -> str;
  (** [repr(s)] for a str *)
  str_repr : str -> str;
  (** [hash(s)] for a str *)
  hash : str -> Z;
  (** [datetime.fromtimestamp(t).strftime('%Y-%m-%d')] for a number [t] *)
  fromtimestamp_date : Z + flt -> result str;
  (** [datetime.utcnow().isoformat()] *)
  utcnow_isoformat : str;
  (** the page text returned by [get_dashboard_html()] *)
  dashboard_html : str
}.

Section Model.
Context {RT : PyRuntime}.

(** ** Python values *)

Definition pyval : Type := pyval_of flt.
Definition dict : Type := list (str * pyval).
Definition response : Type := response_of flt.
Definition env : Type := env_of flt.

Definition type_name (v : pyval) : str :=
  match v with
  | PyNone => u "NoneType"
  | PyBool _ => u "bool"
  | PyInt _ => u "int"
  | PyFloat _ => u "float"
  | PyStr _ => u "str"
  | PyList _ => u "list"
  | PyDict _ => u "dict"
  end.

(** [bool(v)] *)
Definition truthy (v : pyval) : bool :=
  match v with
  | PyNone => false
  | PyBool b => b
  | PyInt z => negb (z =? 0)
  | PyFloat f => negb (flt_is_zero f)
  | PyStr s => match s with [] => false | _ => true end
  | PyList l => match l with [] => false | _ => true end
  | PyDict kv => match kv with [] => false | _ => true end
  end.

Definition is_none (v : pyval) : bool :=
  match v with PyNone => true | _ => false end.

Definition is_list (v : pyval) : bool :=
  match v with PyList _ => true | _ => false end.

Fixpoint lookup (k : str) (kv : dict) : option pyval :=
  match kv with
  | [] => None
  | (k', v) :: rest => if str_eqb k k' then Some v else lookup k rest
  end.

(** [d[k] = v] on a dict: replaces the value of an existing key in place,
    appends a new key at the end. *)
Fixpoint dict_set (kv : dict) (k : str) (v : pyval) : dict :=
  match kv with
  | [] => [(k, v)]
  | (k', v') :: rest =>
      if str_eqb k k' then (k', v) :: rest else (k', v') :: dict_set rest k v
  end.

(** [v.get(k, default)]: only a dict has the method. *)
Definition py_get (v : pyval) (k : str) (default : pyval) : result pyval :=
  match v with
  | PyDict kv => rret (match lookup k kv with Some x => x | None => default end)
  | _ => rraise AttributeError
           (u "'" ++ type_name v ++ u "' object has no attribute 'get'")
  end.

(** [v[k]] for a str key [k]. *)
Definition getitem_str (v : pyval) (k : str) : result pyval :=
  match v with
  | PyDict kv =>
      match lookup k kv with
      | Some x => rret x
      | None => rraise KeyError (u "'" ++ k ++ u "'")
      end
  | PyList _ => rraise TypeError (u "list indices must be integers or slices, not str")
  | PyStr _ => rraise TypeError (u "string indices must be integers, not 'str'")
  | _ => rraise TypeError (u "'" ++ type_name v ++ u "' object is not subscriptable")
  end.

(** [l[i]] on a sequence of length [n]: a negative index counts from the end. *)
Definition seq_index {A} (l : list A) (i : Z) : option A :=
  let n := Z.of_nat (List.length l) in
  if (0 <=? i) && (i <? n) then nth_error l (Z.to_nat i)
  else if (i <? 0) && (0 <=? i + n) then nth_error l (Z.to_nat (i + n))
  else None.

(** [v[i]] for an int index [i]. *)
Definition getitem_int (v : pyval) (i : Z) : result pyval :=
  match v with
  | PyList l =>
      match seq_index l i with
      | Some x => rret x
      | None => rraise IndexError (u "list index out of range")
      end
  | PyStr s =>
      match seq_index s i with
      | Some c => rret (PyStr [c])
      | None => rraise IndexError (u "string index out of range")
      end
  | PyDict _ => rraise KeyError (dec i)
  | _ => rraise TypeError (u "'" ++ type_name v ++ u "' object is not subscriptable")
  end.

(** [len(v)] *)
Definition py_len (v : pyval) : result Z :=
  match v with
  | PyList l => rret (Z.of_nat (List.length l))
  | PyStr s => rret (Z.of_nat (List.length s))
  | PyDict kv => rret (Z.of_nat (List.length kv))
  | _ => rraise TypeError (u "object of type '" ++ type_name v ++ u "' has no len()")
  end.

(** *** Arithmetic on int, float and bool *)

Inductive number := NInt (z : Z) | NFlt (f : flt).

Definition as_number (v : pyval) : option number :=
  match v with
  | PyBool b => Some (NInt (if b then 1 else 0))
  | PyInt z => Some (NInt z)
  | PyFloat f => Some (NFlt f)
  | _ => None
  end.

Definition to_flt (z : Z) : result flt :=
  match flt_of_int z with
  | Some f => rret f
  | None => rraise OverflowError (u "int too large to convert to float")
  end.

Definition unsupported (op : str) (a b : pyval) : exn :=
  Exn TypeError (u "unsupported operand type(s) for " ++ op ++ u ": '"
                 ++ type_name a ++ u "' and '" ++ type_name b ++ u "'").

(** [a - b] *)
Definition py_sub (a b : pyval) : result pyval :=
  match as_number a, as_number b with
  | Some (NInt x), Some (NInt y) => rret (PyInt (x - y))
  | Some (NFlt x), Some (NFlt y) => rret (PyFloat (flt_sub x y))
  | Some (NInt x), Some (NFlt y) => let? x' := to_flt x in rret (PyFloat (flt_sub x' y))
  | Some (NFlt x), Some (NInt y) => let? y' := to_flt y in rret (PyFloat (flt_sub x y'))
  | _, _ => inl (unsupported (u "-") a b)
  end.

(** [a * b] on numbers. *)
Definition py_mul (a b : pyval) : result pyval :=
  match as_number a, as_number b with
  | Some (NInt x), Some (NInt y) => rret (PyInt (x * y))
  | Some (NFlt x), Some (NFlt y) => rret (PyFloat (flt_mul x y))
  | Some (NInt x), Some (NFlt y) => let? x' := to_flt x in rret (PyFloat (flt_mul x' y))
  | Some (NFlt x), Some (NInt y) => let? y' := to_flt y in rret (PyFloat (flt_mul x y'))
  | _, _ => inl (unsupported (u "*") a b)
  end.

Definition flt_truediv (x y : flt) : result pyval :=
  if flt_is_zero y then rraise ZeroDivisionError (u "float division by zero")
  else rret (PyFloat (flt_div x y)).

(** [a / b] *)
Definition py_truediv (a b : pyval) : result pyval :=
  match as_number a, as_number b with
  | Some (NInt x), Some (NInt y) =>
      if y =? 0 then rraise ZeroDivisionError (u "division by zero")
      else match int_truediv x y with
           | Some q => rret (PyFloat q)
           | None => rraise OverflowError (u "integer division result too large for a float")
           end
  | Some (NFlt x), Some (NFlt y) => flt_truediv x y
  | Some (NInt x), Some (NFlt y) => let? x' := to_flt x in flt_truediv x' y
  | Some (NFlt x), Some (NInt y) => let? y' := to_flt y in flt_truediv x y'
  | _, _ => inl (unsupported (u "/") a b)
  end.

(** [round(v, 2)]: an int is returned as it is. *)
Definition py_round2 (v : pyval) : result pyval :=
  match as_number v with
  | Some (NInt x) => rret (PyInt x)
  | Some (NFlt x) => rret (PyFloat (flt_round2 x))
  | None => rraise TypeError
              (u "type " ++ type_name v ++ u " doesn't define __round__ method")
  end.

(** [datetime.fromtimestamp(v).strftime('%Y-%m-%d')] *)
Definition py_fromtimestamp_date (v : pyval) : result str :=
  match as_number v with
  | Some (NInt x) => fromtimestamp_date (inl x)
  | Some (NFlt x) => fromtimestamp_date (inr x)
  | None => rraise TypeError
              (u "'" ++ type_name v ++ u "' object cannot be interpreted as an integer")
  end.

(** *** [repr] and [str] *)

Fixpoint py_repr (v : pyval) : str :=
  match v with
  | PyNone => u "None"
  | PyBool true => u "True"
  | PyBool false => u "False"
  | PyInt z => dec z
  | PyFloat f => flt_repr f
  | PyStr s => str_repr s
  | PyList l => u "[" ++ join (u ", ") (map py_repr l) ++ u "]"
  | PyDict kv =>
      u "{" ++ join (u ", ")
                 (map (fun p => str_repr (fst p) ++ u ": " ++ py_repr (snd p)) kv)
      ++ u "}"
  end.

(** [str(v)], as an f-string field formats it. *)
Definition py_str (v : pyval) : str :=
  match v with
  | PyStr s => s
  | _ => py_repr v
  end.

(** *** [json.dumps] *)

(** The escape of one character inside a JSON string ([ensure_ascii]). *)
Definition escape_char (c : codepoint) : str :=
  if (c =? dquote)%N then [backslash; dquote]
  else if (c =? backslash)%N then [backslash; backslash]
  else if (c =? 10)%N then u "\n"
  else if (c =? 13)%N then u "\r"
  else if (c =? 9)%N then u "\t"
  else if (c =? 8)%N then u "\b"
  else if (c =? 12)%N then u "\f"
  else if ((32 <=? c) && (c <=? 126))%N then [c]
  else if (c <? 65536)%N then u "\u" ++ hex4 c
  else let v := (c - 65536)%N in
       u "\u" ++ hex4 (55296 + (v / 1024) mod 1024)%N
       ++ u "\u" ++ hex4 (56320 + v mod 1024)%N.

Definition json_str (s : str) : str :=
  [dquote] ++ flat_map escape_char s ++ [dquote].

Definition newline_indent (indent : option nat) (level : nat) : str :=
  match indent with
  | None => []
  | Some n => nl :: repeat 32%N (n * level)
  end.

Definition item_sep (indent : option nat) (level : nat) : str :=
  match indent with
  | None => u ", "
  | Some _ => u "," ++ newline_indent indent level
  end.

Fixpoint dumps_at (indent : option nat) (level : nat) (v : pyval) : str :=
  match v with
  | PyNone => u "null"
  | PyBool true => u "true"
  | PyBool false => u "false"
  | PyInt z => dec z
  | PyFloat f => flt_json f
  | PyStr s => json_str s
  | PyList [] => u "[]"
  | PyList l =>
      u "[" ++ newline_indent indent (S level)
      ++ join (item_sep indent (S level)) (map (dumps_at indent (S level)) l)
      ++ newline_indent indent level ++ u "]"
  | PyDict [] => u "{}"
  | PyDict kv =>
      u "{" ++ newline_indent indent (S level)
      ++ join (item_sep indent (S level))
           (map (fun p => json_str (fst p) ++ u ": " ++ dumps_at indent (S level) (snd p)) kv)
      ++ newline_indent indent level ++ u "}"
  end.

(** [json.dumps(v)] and [json.dumps(v, indent=2)] *)
Definition json_dumps (v : pyval) : str := dumps_at None 0 v.
Definition json_dumps_indent2 (v : pyval) : str := dumps_at (Some 2%nat) 0 v.

(** ** Outbound calls *)

Record request := Request {
  req_url : str;
  req_method : str;
  req_body : option str
}.

(** [r.ok] *)
Definition ok (r : response) : bool := (200 <=? status r) && (status r <=? 299).

Definition trace := list request.

(** The upstream services: the outcome of a request, given the requests made
    before it in the run. *)
Definition world := trace -> request -> result response.

Definition M (A : Type) : Type := world -> trace -> result A * trace.

Definition ret {A} (a : A) : M A := fun _ t => (inr a, t).
Definition raise {A} (c : exn_class) (msg : str) : M A := fun _ t => (inl (Exn c msg), t).
Definition bind {A B} (m : M A) (k : A -> M B) : M B :=
  fun w t => match m w t with
             | (inl e, t') => (inl e, t')
             | (inr a, t') => k a w t'
             end.
Definition lift {A} (r : result A) : M A := fun _ t => (r, t).

(** [try: m  except Exception as error: h error] *)
Definition try_catch {A} (m : M A) (h : exn -> M A) : M A :=
  fun w t => match m w t with
             | (inl e, t') => h e w t'
             | (inr a, t') => (inr a, t')
             end.

(** [await fetch(url, options)] *)
Definition fetch (r : request) : M response := fun w t => (w t r, t ++ [r]).

Notation "x <- m ;; k" := (bind m (fun x => k))
  (at level 61, m at next level, right associativity).

(** ** Quote fetcher: [fetch_market_data] *)

Definition symbols : list str :=
  [u "SPY"; u "QQQ"; u "AAPL"; u "MSFT"; u "TSLA"; u "NVDA"].

Definition yahoo_url (symbol : str) : str :=
  u "https://query1.finance.yahoo.com/v8/finance/chart/" ++ symbol.

Definition yahoo_request (symbol : str) : request :=
  Request (yahoo_url symbol) (u "GET") None.

(** The [while] loop of lines 256-258, run from [last_index = n - 1]: the
    last index whose close is not None, or -1. *)
Fixpoint find_last_close (closes : pyval) (n : nat) : result Z :=
  match n with
  | O => rret (-1)
  | S k =>
      if negb (truthy closes) then find_last_close closes k
      else let? c := getitem_int closes (Z.of_nat k) in
           if is_none c then find_last_close closes k
           else rret (Z.of_nat k)
  end.

(** [arr[i] if arr and i < len(arr) else default] *)
Definition bar_field (arr : pyval) (i : Z) (default : pyval) : result pyval :=
  if truthy arr then
    let? n := py_len arr in
    if i <? n then getitem_int arr i else rret default
  else rret default.

(** [50 + (hash(symbol) % 30 - 15)] *)
Definition rsi_of (symbol : str) : Z := 50 + (hash symbol mod 30 - 15).

(** Lines 230-295: from the decoded chart payload to the symbol's entry. *)
Definition quote_of_chart (symbol : str) (response_data : pyval) : result pyval :=
  let? chart := py_get response_data (u "chart") (PyDict []) in
  let? err := py_get chart (u "error") PyNone in
  if truthy err then
    let? c := getitem_str response_data (u "chart") in
    let? e := getitem_str c (u "error") in
    let? d := getitem_str e (u "description") in
    rraise ValueError (u "API Error: " ++ py_str d)
  else
  let? chart := py_get response_data (u "chart") (PyDict []) in
  let? res := py_get chart (u "result") PyNone in
  if negb (truthy res) then rraise ValueError (u "No chart data in response")
  else
  let? c := getitem_str response_data (u "chart") in
  let? r := getitem_str c (u "result") in
  let? result := getitem_int r 0 in
  let? meta := py_get result (u "meta") (PyDict []) in
  let? indicators := py_get result (u "indicators") (PyDict []) in
  let? quotes := py_get indicators (u "quote") (PyList [PyDict []]) in
  let? quote := getitem_int quotes 0 in
  if negb (truthy quote) || negb (truthy meta) then
    rraise ValueError (u "Missing quote or meta data")
  else
  let? timestamps := py_get result (u "timestamp") (PyList []) in
  let? opens := py_get quote (u "open") (PyList []) in
  let? highs := py_get quote (u "high") (PyList []) in
  let? lows := py_get quote (u "low") (PyList []) in
  let? closes := py_get quote (u "close") (PyList []) in
  let? volumes := py_get quote (u "volume") (PyList []) in
  if negb (truthy timestamps) then rraise ValueError (u "No timestamp data available")
  else
  let? n := py_len timestamps in
  let? last_index := find_last_close closes (Z.to_nat n) in
  if last_index <? 0 then rraise ValueError (u "No valid price data found")
  else
  let? close := bar_field closes last_index (PyInt 0) in
  let? open_price := bar_field opens last_index close in
  let? high := bar_field highs last_index close in
  let? low := bar_field lows last_index close in
  let? volume := bar_field volumes last_index (PyInt 0) in
  let? current_price := py_get meta (u "regularMarketPrice") close in
  let? chart_previous := py_get meta (u "chartPreviousClose") open_price in
  let? previous_close := py_get meta (u "previousClose") chart_previous in
  let? day_change := py_sub current_price previous_close in
  let? day_change_percent :=
    (if truthy previous_close then
       let? q := py_truediv day_change previous_close in
       let? p := py_mul q (PyInt 100) in
       py_round2 p
     else rret (PyInt 0)) in
  let rsi := rsi_of symbol in
  let? ts := getitem_int timestamps last_index in
  let? date := py_fromtimestamp_date ts in
  let? currency := py_get meta (u "currency") (PyStr (u "USD")) in
  let? market_state := py_get meta (u "marketState") (PyStr (u "REGULAR")) in
  let? high52 := py_get meta (u "fiftyTwoWeekHigh") PyNone in
  let? low52 := py_get meta (u "fiftyTwoWeekLow") PyNone in
  rret (PyDict [(u "price", current_price);
                (u "open", open_price);
                (u "high", high);
                (u "low", low);
                (u "volume", volume);
                (u "change", day_change);
                (u "change_percent", day_change_percent);
                (u "rsi", PyInt rsi);   (* round(rsi, 1) of an int is the int *)
                (u "date", PyStr date);
                (u "currency", currency);
                (u "marketState", market_state);
                (u "fiftyTwoWeekHigh", high52);
                (u "fiftyTwoWeekLow", low52);
                (u "error", PyNone)]).

(** The body of the [try] of one loop iteration (lines 212-295). *)
Definition quote_for_symbol (symbol : str) : M pyval :=
  price_response <- fetch (yahoo_request symbol) ;;
  if negb (ok price_response) then
    raise ValueError (u "HTTP " ++ dec (status price_response) ++ u ": "
                      ++ status_text price_response)
  else
  response_data <- lift (body_json price_response) ;;
  lift (quote_of_chart symbol response_data).

(** The [except] of the loop (line 299). *)
Definition error_entry (error : exn) : pyval :=
  PyDict [(u "error", PyStr (u "Failed to fetch data: " ++ exn_str error))].

(** The [for] loop of lines 210-299 over the symbols still to process. *)
Fixpoint fetch_symbols (todo : list str) (market_data : dict) : M dict :=
  match todo with
  | [] => ret market_data
  | symbol :: rest =>
      entry <- try_catch (quote_for_symbol symbol) (fun error => ret (error_entry error)) ;;
      fetch_symbols rest (dict_set market_data symbol entry)
  end.

Definition fetch_market_data : M dict := fetch_symbols symbols [].

(** ** The worker's environment: [env] *)

(** [hasattr(env, a) and env.a] as a condition. *)
Definition attr_set (a : option pyval) : bool :=
  match a with
  | Some v => truthy v
  | None => false
  end.

Definition attr_value (a : option pyval) : pyval :=
  match a with
  | Some v => v
  | None => PyNone
  end.

(** ** News fetcher: [fetch_market_news] *)

Definition news_url (key : pyval) : str :=
  u "https://financialmodelingprep.com/api/v3/stock_news?tickers=AAPL,MSFT,TSLA,NVDA&limit=10&apikey="
  ++ py_str key.

Definition news_request (key : pyval) : request :=
  Request (news_url key) (u "GET") None.

(** [api_url.replace(key, ...)] (line 318) raises unless [key] is a str. *)
Definition replace_arg (key : pyval) : result unit :=
  match key with
  | PyStr _ => rret tt
  | _ => rraise TypeError
           (u "replace() argument 1 must be str, not " ++ type_name key)
  end.

(** [v[:300]] *)
Definition slice_300 (v : pyval) : result pyval :=
  match v with
  | PyStr s => rret (PyStr (firstn 300 s))
  | PyList l => rret (PyList (firstn 300 l))
  | _ => rraise TypeError (u "'" ++ type_name v ++ u "' object is not subscriptable")
  end.

(** [v + '...'] *)
Definition add_ellipsis (v : pyval) : result pyval :=
  match v with
  | PyStr s => rret (PyStr (s ++ u "..."))
  | PyList _ => rraise TypeError (u "can only concatenate list (not 'str') to list")
  | _ => inl (unsupported (u "+") v (PyStr (u "...")))
  end.

(** One element of the comprehension of lines 350-359. *)
Definition process_article (article : pyval) : result pyval :=
  let? title := py_get article (u "title") (PyStr (u "No title")) in
  let? has_text := py_get article (u "text") PyNone in
  let? text :=
    (if truthy has_text then
       let? t := py_get article (u "text") (PyStr []) in
       let? t300 := slice_300 t in
       add_ellipsis t300
     else rret (PyStr (u "No content available"))) in
  let? published := py_get article (u "publishedDate") (PyStr (u "Unknown date")) in
  let? symbol := py_get article (u "symbol") (PyStr (u "N/A")) in
  let? url := py_get article (u "url") (PyStr (u "#")) in
  rret (PyDict [(u "title", title);
                (u "text", text);
                (u "publishedDate", published);
                (u "symbol", symbol);
                (u "url", url)]).

Fixpoint map_result {A B} (f : A -> result B) (l : list A) : result (list B) :=
  match l with
  | [] => rret []
  | x :: rest =>
      let? y := f x in
      let? ys := map_result f rest in
      rret (y :: ys)
  end.

(** The suffix lines 331-338 add to the error text for a status. *)
Definition status_hint (st : Z) : str :=
  if st =? 403 then
    u " - This usually means your API key is invalid, expired, or you've exceeded rate limits. Check your FMP_API_KEY or upgrade your plan."
  else if st =? 401 then
    u " - Invalid API key. Please check your FMP_API_KEY configuration."
  else if st =? 429 then
    u " - Rate limit exceeded. Please wait or upgrade your FMP plan."
  else if 500 <=? st then
    u " - Server error on Financial Modeling Prep side. Try again later."
  else [].

(** The [except] of lines 370-380. *)
Definition news_error_text (error : exn) : str :=
  if is_substring (u "403") (exn_str error) then
    u "Market news unavailable: Access forbidden. Please check your FMP_API_KEY is valid and not rate-limited."
  else if is_substring (u "401") (exn_str error) then
    u "Market news unavailable: Invalid API key. Please verify your FMP_API_KEY."
  else if is_substring (u "429") (exn_str error) then
    u "Market news unavailable: Rate limit exceeded. Please wait or upgrade your Financial Modeling Prep plan."
  else u "Market news unavailable: " ++ exn_str error.

(** The [try] of lines 311-368.  The decoded payload is a Python value, for
    which [hasattr(news_data, 'error')] (line 346) is false. *)
Definition fetch_market_news_try (e : env) : M pyval :=
  if negb (attr_set (FMP_API_KEY e)) then
    ret (PyStr (u "Market news unavailable: FMP_API_KEY not configured. Sign up at https://financialmodelingprep.com/developer/docs"))
  else
  _ <- lift (replace_arg (attr_value (FMP_API_KEY e))) ;;
  news_response <- fetch (news_request (attr_value (FMP_API_KEY e))) ;;
  if negb (ok news_response) then
    raise ValueError (u "HTTP " ++ dec (status news_response) ++ u ": "
                      ++ status_text news_response
                      ++ status_hint (status news_response))
  else
  news_data <- lift (body_json news_response) ;;
  match news_data with
  | PyList [] =>
      ret (PyStr (u "Market news unavailable: No articles returned from API. This could indicate rate limits reached or no news available for selected tickers."))
  | PyList articles =>
      processed_news <- lift (map_result process_article (firstn 5 articles)) ;;
      ret (PyList processed_news)
  | _ =>
      ret (PyStr (u "Market news unavailable: Invalid data format received from API"))
  end.

Definition fetch_market_news (e : env) : M pyval :=
  try_catch (fetch_market_news_try e)
            (fun error => ret (PyStr (news_error_text error))).

(** ** Report notifier: [send_email_report] *)

(** [abs(float(v)) > 2]: [float] takes a number as it is and parses a
    str. *)
Definition abs_float_gt2 (v : pyval) : result bool :=
  match v with
  | PyStr s =>
      match flt_of_str s with
      | Some f => rret (flt_abs_gt2 f)
      | None => rraise ValueError
                  (u "could not convert string to float: " ++ str_repr s)
      end
  | _ =>
      match as_number v with
      | Some (NInt z) => let? f := to_flt z in rret (flt_abs_gt2 f)
      | Some (NFlt f) => rret (flt_abs_gt2 f)
      | None => rraise TypeError
                  (u "float() argument must be a string or a real number, not '"
                   ++ type_name v ++ u "'")
      end
  end.

(** The comprehension of lines 392-396, before the join. *)
Fixpoint mover_lines (items : dict) : result (list str) :=
  match items with
  | [] => rret []
  | (symbol, data) :: rest =>
      let? cp := py_get data (u "change_percent") PyNone in
      let? keep :=
        (if truthy cp then
           let? x := getitem_str data (u "change_percent") in abs_float_gt2 x
         else rret false) in
      let? line :=
        (if keep then
           let? x := getitem_str data (u "change_percent") in
           rret [symbol ++ u ": " ++ py_str x ++ u "%"]
         else rret []) in
      let? more := mover_lines rest in
      rret (line ++ more)
  end.

Definition mailgun_url (domain : pyval) : str :=
  u "https://api.mailgun.net/v3/" ++ py_str domain ++ u "/messages".

(** The form data of lines 398-441 is built from [movers] and [analysis] and
    is not passed to [fetch]: the request carries no body. *)
Definition send_email_report (e : env) (analysis : str) (market_data : dict) : M bool :=
  if negb (attr_set (MAILGUN_API_KEY e) && attr_set (MAILGUN_DOMAIN e)
           && attr_set (RECIPIENT_EMAIL e)) then ret false
  else
  try_catch
    (movers <- lift (mover_lines market_data) ;;
     response <- fetch (Request (mailgun_url (attr_value (MAILGUN_DOMAIN e)))
                                (u "POST") None) ;;
     if ok response then ret true
     else (error_text <- lift (body_text response) ;; ret false))
    (fun _ => ret false).

(** ** Orchestrator: [handle_stock_analysis] *)

(** [[symbol for symbol, data in market_data.items() if not data.get('error')]] *)
Fixpoint valid_symbols (items : dict) : result (list str) :=
  match items with
  | [] => rret []
  | (symbol, data) :: rest =>
      let? e := py_get data (u "error") PyNone in
      let? more := valid_symbols rest in
      rret (if truthy e then more else symbol :: more)
  end.

(** [isinstance(market_news, str) and 'unavailable' in market_news] *)
Definition news_unavailable (market_news : pyval) : bool :=
  match market_news with
  | PyStr s => is_substring (u "unavailable") s
  | _ => false
  end.

Definition technical_prompt : str :=
  join [nl]
    [u "You are a professional technical analyst. Analyze the provided real market data:";
     u "            - Calculate key technical indicators (RSI, MACD, Moving Averages)";
     u "            - Identify support and resistance levels";
     u "            - Determine market trends and momentum";
     u "            - Provide trading signals and price targets";
     u "            Format your analysis professionally with specific price levels."].

Definition fundamental_prompt : str :=
  join [nl]
    [u "You are a fundamental market analyst. Using the provided market data and any available news:";
     u "            - Analyze company fundamentals and market conditions";
     u "            - Evaluate economic indicators and market sentiment";
     u "            - Assess sector rotation and value opportunities";
     u "            - Identify risks and catalysts";
     u "            - If news data is unavailable, focus on technical patterns and historical data";
     u "            Provide investment recommendations with risk assessment."].

(** The news block of the task (line 131). *)
Definition news_section (market_news : pyval) : str :=
  if news_unavailable market_news then u "NEWS STATUS: " ++ py_str market_news
  else u "MARKET NEWS:" ++ [nl] ++ json_dumps_indent2 market_news.

(** The f-string of lines 126-138. *)
Definition build_task (market_data : dict) (market_news : pyval) : str :=
  u "Analyze the following real market data"
  ++ (if negb (news_unavailable market_news) then u " and news" else [])
  ++ u ":" ++ [nl; nl]
  ++ u "MARKET DATA:" ++ [nl]
  ++ json_dumps_indent2 (PyDict market_data) ++ [nl; nl]
  ++ news_section market_news ++ [nl; nl]
  ++ u "Provide comprehensive analysis with:" ++ [nl]
  ++ u "1. Technical analysis with key levels and trends" ++ [nl]
  ++ u "2. Fundamental analysis "
  ++ (if negb (news_unavailable market_news) then u "incorporating news catalysts"
      else u "based on price action and market structure") ++ [nl]
  ++ u "3. Trading recommendations with entry/exit points" ++ [nl]
  ++ u "4. Risk assessment and position sizing" ++ [nl]
  ++ u "5. Key levels to watch for tomorrow's session".

Definition agent_config (name prompt : str) (temperature : flt) : pyval :=
  PyDict [(u "agent_name", PyStr name);
          (u "system_prompt", PyStr prompt);
          (u "model_name", PyStr (u "gpt-4o-mini"));
          (u "max_tokens", PyInt 1500);
          (u "temperature", PyFloat temperature)].

Definition swarm_config (task : str) : pyval :=
  PyDict [(u "name", PyStr (u "Real-Time Stock Analysis"));
          (u "description", PyStr (u "Live market data analysis with AI agents"));
          (u "agents",
            PyList [agent_config (u "Technical Analyst") technical_prompt (flt_literal 2 1);
                    agent_config (u "Fundamental Analyst") fundamental_prompt (flt_literal 3 1)]);
          (u "swarm_type", PyStr (u "ConcurrentWorkflow"));
          (u "task", PyStr task);
          (u "max_loops", PyInt 1)].

Definition swarms_url : str :=
  u "https://swarms-api-285321057562.us-east1.run.app/v1/swarm/completions".

Definition swarms_request (task : str) : request :=
  Request swarms_url (u "POST") (Some (json_dumps (swarm_config task))).

(** Line 162: [result.get(location, {}).get('billing_info', {}).get('total_cost')]
    for [usage], [or] else the same for [metadata]. *)
Definition cost_at (location : str) (swarm_result : pyval) : result pyval :=
  let? section := py_get swarm_result location (PyDict []) in
  let? billing := py_get section (u "billing_info") (PyDict []) in
  py_get billing (u "total_cost") PyNone.

Definition billing_cost (swarm_result : pyval) : result pyval :=
  let? first := cost_at (u "usage") swarm_result in
  if truthy first then rret first
  else cost_at (u "metadata") swarm_result.

Definition robot_face : codepoint := 129302%N.

(** One element of the comprehension of lines 167-170. *)
Definition format_agent (agent : pyval) : result str :=
  let? name := py_get agent (u "agent_name") (PyStr (u "AI Agent")) in
  let? role := py_get agent (u "role") name in
  let? response := py_get agent (u "response") (PyStr []) in
  let? content := py_get agent (u "content") response in
  rret (u "## " ++ [robot_face] ++ u " " ++ py_str role ++ [nl; nl]
        ++ py_str content ++ [nl; nl] ++ repeat 61%N 80 ++ [nl]).

(** Lines 166-175. *)
Definition format_analysis (output : pyval) : result str :=
  match output with
  | PyList agents =>
      let? parts := map_result format_agent agents in rret (join [nl] parts)
  | PyStr s => rret s
  | _ => rret (json_dumps_indent2 output)
  end.

Definition failure (error : exn) : pyval :=
  PyDict [(u "success", PyBool false); (u "error", PyStr (exn_str error))].

(** Lines 83-91: the news, or the note that stands for it. *)
Definition market_news_step (e : env) : M pyval :=
  try_catch (fetch_market_news e)
    (fun _ => ret (PyStr (u "Market news unavailable due to API error. Analysis will continue with stock data only."))).

(** Lines 158-191: from the decoded reply of the AI service to the result
    of the run. *)
Definition build_result (e : env) (market_data : dict) (valid : list str)
    (result : pyval) : M pyval :=
  output <- lift (py_get result (u "output") PyNone) ;;
  if negb (truthy output) then
    raise ValueError (u "No analysis output received from Swarms API")
  else
  cost <- lift (billing_cost result) ;;
  output <- lift (getitem_str result (u "output")) ;;
  formatted_analysis <- lift (format_analysis output) ;;
  _ <- (if attr_set (MAILGUN_API_KEY e) && attr_set (MAILGUN_DOMAIN e)
           && attr_set (RECIPIENT_EMAIL e)
        then send_email_report e formatted_analysis market_data
        else ret false) ;;
  ret (PyDict [(u "success", PyBool true);
               (u "analysis", PyStr formatted_analysis);
               (u "symbolsAnalyzed", PyInt (Z.of_nat (List.length valid)));
               (u "cost", cost)]).

(** Lines 93-191: the request to the AI service and what follows it. *)
Definition request_analysis (e : env) (market_data : dict) (valid : list str)
    (market_news : pyval) : M pyval :=
  swarms_response <- fetch (swarms_request (build_task market_data market_news)) ;;
  if negb (ok swarms_response) then
    error_text <- lift (body_text swarms_response) ;;
    raise ValueError (u "Swarms API error: " ++ dec (status swarms_response)
                      ++ u " - " ++ error_text)
  else
  result <- lift (body_json swarms_response) ;;
  build_result e market_data valid result.

(** The [try] of lines 65-191. *)
Definition handle_stock_analysis_try (e : env) : M pyval :=
  if negb (attr_set (SWARMS_API_KEY e)) then
    raise ValueError (u "SWARMS_API_KEY is required")
  else
  market_data <- fetch_market_data ;;
  valid <- lift (valid_symbols market_data) ;;
  match valid with
  | [] => raise ValueError (u "No valid market data retrieved")
  | _ =>
      market_news <- market_news_step e ;;
      request_analysis e market_data valid market_news
  end.

Definition handle_stock_analysis (e : env) : M pyval :=
  try_catch (handle_stock_analysis_try e) (fun error => ret (failure error)).

(** ** Request router: [on_fetch] *)

Record http_response := HttpResponse {
  http_body : str;
  http_status : Z;
  http_headers : list (str * str)
}.

Definition slash : codepoint := 47%N.
Definition question_mark : codepoint := 63%N.

(** [url.split('?')[0].split('/')[-1] if '/' in url else ''] *)
Definition path_of (url : str) : str :=
  if is_substring [slash] url then
    last (split_on slash (hd [] (split_on question_mark url))) []
  else [].

Definition json_headers : list (str * str) :=
  [(u "Content-Type", u "application/json")].

Definition not_found : http_response := HttpResponse (u "Not Found") 404 [].

(** The page is a constant of the source; its text is a parameter. *)
Definition get_dashboard_html : str := dashboard_html.

Definition on_fetch (url : str) (e : env) : M http_response :=
  let path := path_of url in
  if str_eqb path [] then
    ret (HttpResponse get_dashboard_html 200
           [(u "Content-Type", u "text/html; charset=utf-8");
            (u "Cache-Control", u "public, max-age=300")])
  else if str_eqb path (u "trigger") then
    try_catch
      (result <- handle_stock_analysis e ;;
       ret (HttpResponse
              (json_dumps
                 (PyDict [(u "message", PyStr (u "Stock analysis triggered manually"));
                          (u "timestamp", PyStr (utcnow_isoformat ++ u "Z"));
                          (u "result", result)]))
              200 json_headers))
      (fun error =>
         ret (HttpResponse
                (json_dumps
                   (PyDict [(u "error", PyStr (u "Failed to trigger analysis"));
                            (u "message", PyStr (exn_str error));
                            (u "timestamp", PyStr (utcnow_isoformat ++ u "Z"))]))
                500 json_headers))
  else if str_eqb path (u "status") then
    ret (HttpResponse
           (json_dumps
              (PyDict [(u "status", PyStr (u "active"));
                       (u "timestamp", PyStr (utcnow_isoformat ++ u "Z"));
                       (u "service", PyStr (u "Python Stock Analysis Agent"));
                       (u "version", PyStr (u "1.0.0"))]))
           200 json_headers)
  else ret not_found.

(** The execution context of a handler: what [ctx.wait_until] does with the
    coroutine it is handed. *)
Record ctx := Ctx {
  wait_until : M pyval -> M unit
}.

(** [on_scheduled] does not await the run: it hands the coroutine to
    [ctx.wait_until] and returns. *)
Definition on_scheduled (e : env) (c : ctx) : M unit :=
  wait_until c (handle_stock_analysis e).

End Model.

(** ** Vocabulary of the statements *)

Section Statements.
Context {RT : PyRuntime}.

(** [data[k]], when [data] is a dict holding [k]. *)
Definition field (k : str) (data : pyval) : option pyval :=
  match data with
  | PyDict kv => lookup k kv
  | _ => None
  end.

Definition field_present (k : str) (data : pyval) : bool :=
  match field k data with
  | Some _ => true
  | None => false
  end.

(** The field is there and is not None. *)
Definition field_populated (k : str) (data : pyval) : bool :=
  match field k data with
  | Some v => negb (is_none v)
  | None => false
  end.

(** The error field is absent or None. *)
Definition error_clear (data : pyval) : bool :=
  negb (field_populated (u "error") data).

Definition price_fields : list str :=
  [u "price"; u "open"; u "high"; u "low"; u "volume"; u "change"; u "change_percent"].

(** The TickerQuote invariant of the data model: exactly one of (all price
    fields populated) and (error populated); so the error is absent or None
    when the price fields are populated. *)
Definition ticker_quote_invariant (data : pyval) : bool :=
  xorb (forallb (fun k => field_populated k data) price_fields)
       (field_populated (u "error") data).

(** The fields the quote fetcher computes itself, and the bar fields it
    copies from the provider's arrays. *)
Definition computed_fields : list str :=
  [u "price"; u "change"; u "change_percent"; u "rsi"; u "date"].

Definition bar_fields : list str :=
  [u "open"; u "high"; u "low"; u "volume"].

(** Exactly one of (computed fields populated, bar fields present) and
    (error populated). *)
Definition quote_entry_invariant (data : pyval) : bool :=
  xorb (forallb (fun k => field_populated k data) computed_fields
        && forallb (fun k => field_present k data) bar_fields)
       (field_populated (u "error") data).

Definition is_number (v : pyval) : bool :=
  match as_number v with
  | Some _ => true
  | None => false
  end.

(** The two shapes of an entry of the quote mapping: the dict of lines
    280-295 and the dict of line 299. *)
Inductive entry_shape (symbol : str) : pyval -> Prop :=
| shape_quote price open_price high low volume change pct date currency state hi52 lo52 :
    is_number price = true ->
    is_number change = true ->
    is_number pct = true ->
    entry_shape symbol
      (PyDict [(u "price", price);
               (u "open", open_price);
               (u "high", high);
               (u "low", low);
               (u "volume", volume);
               (u "change", change);
               (u "change_percent", pct);
               (u "rsi", PyInt (rsi_of symbol));
               (u "date", PyStr date);
               (u "currency", currency);
               (u "marketState", state);
               (u "fiftyTwoWeekHigh", hi52);
               (u "fiftyTwoWeekLow", lo52);
               (u "error", PyNone)])
| shape_error error :
    entry_shape symbol (error_entry error).

(** The entry carries an error marker. *)
Definition has_error (data : pyval) : bool := field_populated (u "error") data.

(** The request goes to the AI completion service / to the email provider. *)
Definition contacts_swarms (r : request) : bool := str_eqb (req_url r) swarms_url.

Definition contacts_mailgun (r : request) : bool :=
  is_prefix (u "https://api.mailgun.net/") (req_url r).

(** The path of a request URL [scheme://host/path?query], as the table of
    the HTTP surface names it: what follows the host, without the query. *)
Definition request_path (url : str) : str :=
  match split_on slash (hd [] (split_on question_mark url)) with
  | _ :: _ :: _ :: segments => [slash] ++ join [slash] segments
  | _ => []
  end.

Fixpoint strs_eqb (a b : list str) : bool :=
  match a, b with
  | [], [] => true
  | x :: a', y :: b' => str_eqb x y && strs_eqb a' b'
  | _, _ => false
  end.

(** A NewsArticle record: a dict with the five keys of lines 351-357. *)
Definition is_news_article (record : pyval) : bool :=
  match record with
  | PyDict kv =>
      strs_eqb (map fst kv)
               [u "title"; u "text"; u "publishedDate"; u "symbol"; u "url"]
  | _ => false
  end.

(** [s.endswith(suffix)] *)
Definition ends_with (suffix s : str) : bool := is_prefix (rev suffix) (rev s).

(** How the text of a record follows from the text of the article it was
    made from: cut to 300 characters and given the ellipsis when the article
    has a non-empty text; the fixed note when the article has no text, or a
    text that is None, empty or otherwise falsy. *)
Definition text_follows (article : pyval) (txt : str) : Prop :=
  (exists s, field (u "text") article = Some (PyStr s) /\ s <> []
             /\ txt = firstn 300 s ++ u "..." /\ ends_with (u "...") txt = true)
  \/ ((field (u "text") article = None
       \/ exists v, field (u "text") article = Some v /\ truthy v = false)
      /\ txt = u "No content available").

(** A record and the article of the payload it was made from. *)
Definition record_of_article (article record : pyval) : Prop :=
  exists txt,
    field (u "text") record = Some (PyStr txt)
    /\ (List.length txt <= 303)%nat
    /\ text_follows article txt.

(** The cost a reply carries at [location.billing_info.total_cost]: the
    value found by following the three keys through objects, unless it is
    None. *)
Definition carried_cost (location : str) (reply : pyval) : option pyval :=
  match field location reply with
  | Some section =>
      match field (u "billing_info") section with
      | Some billing =>
          match field (u "total_cost") billing with
          | Some c => if is_none c then None else Some c
          | None => None
          end
      | None => None
      end
  | None => None
  end.

(** The reply has no cost to prefer at [location]: the location and its
    [billing_info] are absent or objects, and [total_cost] is absent, None,
    zero or otherwise falsy. *)
Definition cost_unset (location : str) (reply : pyval) : bool :=
  match field location reply with
  | None => true
  | Some (PyDict section) =>
      match lookup (u "billing_info") section with
      | None => true
      | Some (PyDict billing) =>
          match lookup (u "total_cost") billing with
          | None => true
          | Some c => negb (truthy c)
          end
      | Some _ => false
      end
  | Some _ => false
  end.

(** The cost a finished run reports. *)
Definition reported_cost (run : result pyval * trace) : option pyval :=
  match fst run with
  | inr res => field (u "cost") res
  | inl _ => None
  end.

(** The task has an entry under the key [symbol]: the key as [json.dumps]
    writes it, followed by the key separator. *)
Definition mentions (symbol : str) (task : str) : bool :=
  is_substring (json_str symbol ++ u ": ") task.

Definition news_phrase : str := u "incorporating news catalysts".

Definition degraded_phrase : str := u "based on price action and market structure".

(** The computation only adds requests to the trace. *)
Definition grows {A} (m : M A) : Prop :=
  forall (w : world) (t : trace), exists rest, snd (m w t) = t ++ rest.

(** The task up to the serialized market data, and from the news block on,
    when the news is unavailable. *)
Definition task_head : str :=
  u "Analyze the following real market data" ++ u ":" ++ [nl; nl] ++ u "MARKET DATA:".

Definition degraded_tail : str :=
  [nl] ++ u "Provide comprehensive analysis with:" ++ [nl]
  ++ u "1. Technical analysis with key levels and trends" ++ [nl]
  ++ u "2. Fundamental analysis " ++ degraded_phrase ++ [nl]
  ++ u "3. Trading recommendations with entry/exit points" ++ [nl]
  ++ u "4. Risk assessment and position sizing" ++ [nl]
  ++ u "5. Key levels to watch for tomorrow's session".

(** ** Vocabulary of the further properties *)

(** The exception of line 225. *)
Definition http_error (resp : response) : exn :=
  Exn ValueError (u "HTTP " ++ dec (status resp) ++ u ": " ++ status_text resp).

(** The entry one loop iteration stores for a symbol, read off what the
    upstream answered to the symbol's request. *)
Definition entry_of_answer (symbol : str) (answer : result response) : pyval :=
  match answer with
  | inl error => error_entry error
  | inr resp =>
      if negb (ok resp) then error_entry (http_error resp)
      else match body_json resp with
           | inl error => error_entry error
           | inr data =>
               match quote_of_chart symbol data with
               | inl error => error_entry error
               | inr q => q
               end
           end
  end.

(** The entries of the symbols of [todo], each from the answer to its own
    request, the requests being made in order from the trace [t]. *)
Fixpoint entries_from (w : world) (t : trace) (todo : list str) : dict :=
  match todo with
  | [] => []
  | symbol :: rest =>
      (symbol, entry_of_answer symbol (w t (yahoo_request symbol)))
      :: entries_from w (t ++ [yahoo_request symbol]) rest
  end.

(** The first result object of a chart payload, and the previous close its
    meta gives. *)
Definition chart_result (data : pyval) : option pyval :=
  match field (u "chart") data with
  | Some chart =>
      match field (u "result") chart with
      | Some (PyList (r :: _)) => Some r
      | _ => None
      end
  | None => None
  end.

Definition meta_previous_close (data : pyval) : option pyval :=
  match chart_result data with
  | Some r =>
      match field (u "meta") r with
      | Some meta => field (u "previousClose") meta
      | None => None
      end
  | None => None
  end.

Definition is_dict (v : pyval) : bool :=
  match v with PyDict _ => true | _ => false end.

(** The notes of lines 374, 376 and 378. *)
Definition forbidden_note : str :=
  u "Market news unavailable: Access forbidden. Please check your FMP_API_KEY is valid and not rate-limited.".

Definition invalid_key_note : str :=
  u "Market news unavailable: Invalid API key. Please verify your FMP_API_KEY.".

Definition rate_limit_note : str :=
  u "Market news unavailable: Rate limit exceeded. Please wait or upgrade your Financial Modeling Prep plan.".

(** The note for the statuses the news fetcher tells apart. *)
Definition status_note (st : Z) : option str :=
  if st =? 403 then Some forbidden_note
  else if st =? 401 then Some invalid_key_note
  else if st =? 429 then Some rate_limit_note
  else None.

(** None of the three status codes occurs in the text. *)
Definition no_status_code (text : str) : bool :=
  negb (is_substring (u "403") text) && negb (is_substring (u "401") text)
  && negb (is_substring (u "429") text).

(** The request of lines 445-451 (it carries no body). *)
Definition mailgun_request (domain : pyval) : request :=
  Request (mailgun_url domain) (u "POST") None.

(** All three email credentials are set. *)
Definition email_configured (e : env) : bool :=
  attr_set (MAILGUN_API_KEY e) && attr_set (MAILGUN_DOMAIN e)
  && attr_set (RECIPIENT_EMAIL e).

(** The two shapes of the result of a run. *)
Definition failure_result (msg : str) : pyval :=
  PyDict [(u "success", PyBool false); (u "error", PyStr msg)].

Definition success_result (analysis : str) (n : Z) (cost : pyval) : pyval :=
  PyDict [(u "success", PyBool true);
          (u "analysis", PyStr analysis);
          (u "symbolsAnalyzed", PyInt n);
          (u "cost", cost)].

(** The number of entries of the mapping without an error marker. *)
Definition count_valid (md : dict) : nat :=
  List.length (filter (fun p => negb (has_error (snd p))) md).

(** [reply.get('output')] for a reply that is an object. *)
Definition reply_output (reply : pyval) : pyval :=
  match field (u "output") reply with
  | Some o => o
  | None => PyNone
  end.

(** The run got past the quotes and the news: the AI credential is set, the
    quote fetcher returned [md] with at least one entry without an error
    marker, and the news step handed on [news], leaving the trace [t2]. *)
Definition reaches_analysis (e : env) (w : world) (t : trace) (md : dict)
    (news : pyval) (t2 : trace) : Prop :=
  attr_set (SWARMS_API_KEY e) = true
  /\ exists t1,
       fetch_market_data w t = (inr md, t1)
       /\ (exists s d, In (s, d) md /\ has_error d = false)
       /\ market_news_step e w t1 = (inr news, t2).

(** The market price the meta of a chart payload gives. *)
Definition meta_market_price (data : pyval) : option pyval :=
  match chart_result data with
  | Some r =>
      match field (u "meta") r with
      | Some meta => field (u "regularMarketPrice") meta
      | None => None
      end
  | None => None
  end.

(** The first quote object under the indicators of a chart payload. *)
Definition chart_quote (data : pyval) : option pyval :=
  match chart_result data with
  | Some r =>
      match field (u "indicators") r with
      | Some indicators =>
          match field (u "quote") indicators with
          | Some (PyList (q :: _)) => Some q
          | _ => None
          end
      | None => None
      end
  | None => None
  end.

(** The array an object of the payload gives under [name]; a missing key
    counts as the empty array. *)
Definition array_of (name : str) (v : pyval) : option (list pyval) :=
  match v with
  | PyDict kv =>
      match lookup name kv with
      | Some (PyList l) => Some l
      | Some _ => None
      | None => Some []
      end
  | _ => None
  end.

(** Bar [i] is the located bar: the latest of the first [n] bars whose close
    is not null, [c] being that close. *)
Definition latest_bar (closes : list pyval) (n i : nat) (c : pyval) : Prop :=
  (i < n)%nat
  /\ nth_error closes i = Some c
  /\ is_none c = false
  /\ forall j, (i < j < n)%nat -> nth_error closes j = Some PyNone.

(** The bar fields of the entry [d] are read from the arrays of the payload
    [data] at the located bar: the element the provider sent there, a null
    included; where an array has no element there, open, high and low are
    the close of the located bar and volume is 0. *)
Definition bars_copied (data d : pyval) : Prop :=
  exists r q,
    chart_result data = Some r
    /\ chart_quote data = Some q
    /\ forall ts opens highs lows closes volumes,
         array_of (u "timestamp") r = Some ts ->
         array_of (u "open") q = Some opens ->
         array_of (u "high") q = Some highs ->
         array_of (u "low") q = Some lows ->
         array_of (u "close") q = Some closes ->
         array_of (u "volume") q = Some volumes ->
         exists i c,
           latest_bar closes (List.length ts) i c
           /\ field (u "open") d = Some (nth i opens c)
           /\ field (u "high") d = Some (nth i highs c)
           /\ field (u "low") d = Some (nth i lows c)
           /\ field (u "volume") d = Some (nth i volumes (PyInt 0)).

End Statements.

(** ** A reference runtime and concrete upstream behaviours

    To run the model on concrete inputs: floats are fixed-point numbers with
    two decimals (hundredths in a [Z]). *)

Definition hundredths_text (f : Z) : str :=
  (if f <? 0 then u "-" else []) ++ dec (Z.abs f / 100) ++ u "."
  ++ dec ((Z.abs f / 10) mod 10) ++ dec (Z.abs f mod 10).

(** The value of a text of decimal digits. *)
Fixpoint digits_value (s : str) (acc : Z) : option Z :=
  match s with
  | [] => Some acc
  | c :: s' =>
      if (48 <=? c)%N && (c <=? 57)%N
      then digits_value s' (10 * acc + Z.of_N (c - 48))
      else None
  end.

Definition unsigned_hundredths (s : str) : option Z :=
  match split_on 46%N s with
  | [whole] =>
      match whole with
      | [] => None
      | _ => option_map (Z.mul 100) (digits_value whole 0)
      end
  | [whole; fraction] =>
      match whole, fraction with
      | _ :: _, _ :: _ =>
          match digits_value whole 0, digits_value fraction 0,
                digits_value (firstn 2 (fraction ++ [48%N; 48%N])) 0 with
          | Some a, Some _, Some b => Some (100 * a + b)
          | _, _, _ => None
          end
      | _, _ => None
      end
  | _ => None
  end.

(** The texts [ddd] and [ddd.ddd], with an optional minus sign; digits after
    the second decimal are dropped. *)
Definition hundredths_of_text (s : str) : option Z :=
  match s with
  | 45%N :: rest => option_map Z.opp (unsigned_hundredths rest)
  | _ => unsigned_hundredths s
  end.

Definition reference_runtime : PyRuntime := {|
  flt := Z;
  flt_of_int z := Some (100 * z);
  flt_of_str := hundredths_of_text;
  flt_is_zero f := f =? 0;
  flt_sub := Z.sub;
  flt_mul x y := x * y / 100;
  flt_div x y := 100 * x / y;
  int_truediv a b := Some (100 * a / b);
  flt_round2 f := f;
  flt_abs_gt2 f := 200 <? Z.abs f;
  flt_literal digits places := 100 * digits / 10 ^ Z.of_nat places;
  flt_repr := hundredths_text;
  flt_json := hundredths_text;
  str_repr s := u "'" ++ s ++ u "'";
  hash s := fold_left (fun a c => a + Z.of_N c) s 0;
  fromtimestamp_date _ := inr (u "2025-01-02");
  utcnow_isoformat := u "2025-01-02T21:00:00";
  dashboard_html := u "<!DOCTYPE html>"
|}.

(** The reference runtime in another interpreter process: [hash] of a str is
    salted per process, everything else is the same. *)
Definition salted_runtime : PyRuntime := {|
  flt := Z;
  flt_of_int := @flt_of_int reference_runtime;
  flt_of_str := @flt_of_str reference_runtime;
  flt_is_zero := @flt_is_zero reference_runtime;
  flt_sub := @flt_sub reference_runtime;
  flt_mul := @flt_mul reference_runtime;
  flt_div := @flt_div reference_runtime;
  int_truediv := @int_truediv reference_runtime;
  flt_round2 := @flt_round2 reference_runtime;
  flt_abs_gt2 := @flt_abs_gt2 reference_runtime;
  flt_literal := @flt_literal reference_runtime;
  flt_repr := @flt_repr reference_runtime;
  flt_json := @flt_json reference_runtime;
  str_repr := @str_repr reference_runtime;
  hash s := 1 + @hash reference_runtime s;
  fromtimestamp_date := @fromtimestamp_date reference_runtime;
  utcnow_isoformat := @utcnow_isoformat reference_runtime;
  dashboard_html := @dashboard_html reference_runtime
|}.

Section Scenarios.
#[local] Existing Instance reference_runtime.

(** A chart payload with one result: bars and meta. *)
Definition chart_payload (timestamps opens highs lows closes volumes : list pyval)
    (meta : dict) : pyval :=
  PyDict [(u "chart",
           PyDict [(u "result",
                    PyList [PyDict [(u "meta", PyDict meta);
                                    (u "timestamp", PyList timestamps);
                                    (u "indicators",
                                     PyDict [(u "quote",
                                              PyList [PyDict [(u "open", PyList opens);
                                                              (u "high", PyList highs);
                                                              (u "low", PyList lows);
                                                              (u "close", PyList closes);
                                                              (u "volume", PyList volumes)]])])]]);
                   (u "error", PyNone)])].

Definition json_response (v : pyval) : response :=
  Response 200 (u "OK") (inr (json_dumps v)) (inr v).

(** A reply whose body is not JSON. *)
Definition text_response (st : Z) (reason body : str) : response :=
  Response st reason (inr body)
           (inl (Exn ValueError (u "Expecting value: line 1 column 1 (char 0)"))).

(** What [world_of] answers for a URL it does not know. *)
Definition network_lost : exn := Exn OtherError (u "Network connection lost.").

(** An upstream that answers by URL and refuses every other connection. *)
Definition world_of (table : list (str * response)) : world :=
  fun _ r =>
    match find (fun p => str_eqb (fst p) (req_url r)) table with
    | Some p => inr (snd p)
    | None => inl network_lost
    end.

(** One complete bar: open 99.50, high 101.00, low 99.00, close 100.25. *)
Definition good_chart : pyval :=
  chart_payload [PyInt 1735822800]
                [PyFloat 9950] [PyFloat 10100] [PyFloat 9900] [PyFloat 10025]
                [PyInt 1000000]
                [(u "regularMarketPrice", PyFloat 10025);
                 (u "previousClose", PyFloat 9900);
                 (u "currency", PyStr (u "USD"))].

(** The same bar with a null open: the close is there, the open is not. *)
Definition open_null_chart : pyval :=
  chart_payload [PyInt 1735822800]
                [PyNone] [PyFloat 10100] [PyFloat 9900] [PyFloat 10025]
                [PyInt 1000000]
                [(u "regularMarketPrice", PyFloat 10025);
                 (u "previousClose", PyFloat 9900);
                 (u "currency", PyStr (u "USD"))].

Definition analysis_reply : pyval :=
  PyDict [(u "output", PyStr (u "plain narrative"))].

Definition env_ai_only : env :=
  Env (Some (PyStr (u "sk-test"))) None None None None.

Definition env_ai_news : env :=
  Env (Some (PyStr (u "sk-test"))) (Some (PyStr (u "fmp-test"))) None None None.

Definition env_no_key : env := Env None None None None None.

(** Every quote request fails (no table entry answers). *)
Definition world_outage : world := world_of [].

(** Only SPY is answered; the AI service replies. *)
Definition world_spy_only : world :=
  world_of [(yahoo_url (u "SPY"), json_response good_chart);
            (swarms_url, json_response analysis_reply)].

(** SPY is answered with a bar whose open is null. *)
Definition world_open_null : world :=
  world_of [(yahoo_url (u "SPY"), json_response open_null_chart)].

(** SPY is answered; the news provider answers 500 with a reason phrase. *)
Definition world_news_500 : world :=
  world_of [(yahoo_url (u "SPY"), json_response good_chart);
            (news_url (PyStr (u "fmp-test")),
             text_response 500 (u "incorporating news catalysts") (u "oops"));
            (swarms_url, json_response analysis_reply)].

Definition long_article : pyval :=
  PyDict [(u "title", PyStr (u "Chips rally"));
          (u "text", PyStr (repeat 120%N 400));
          (u "symbol", PyStr (u "NVDA"))].

Definition short_article : pyval :=
  PyDict [(u "title", PyStr (u "Quiet day"));
          (u "text", PyStr (u "Flat."));
          (u "symbol", PyStr (u "AAPL"))].

Definition empty_article : pyval :=
  PyDict [(u "title", PyStr (u "Headline only")); (u "text", PyStr [])].

(** The entry the quote fetcher builds for SPY from [good_chart]. *)
Definition spy_quote : pyval :=
  Eval vm_compute in
    match quote_of_chart (u "SPY") good_chart with
    | inr q => q
    | inl _ => PyNone
    end.

(** The entry built for SPY from [open_null_chart]. *)
Definition spy_quote_open_null : pyval :=
  Eval vm_compute in
    match quote_of_chart (u "SPY") open_null_chart with
    | inr q => q
    | inl _ => PyNone
    end.

(** The news provider answers with three articles. *)
Definition world_news_ok : world :=
  world_of [(yahoo_url (u "SPY"), json_response good_chart);
            (news_url (PyStr (u "fmp-test")),
             json_response (PyList [long_article; short_article; empty_article]));
            (swarms_url, json_response analysis_reply)].

(** The records the news fetcher makes from the three articles. *)
Definition news_records : list pyval :=
  Eval vm_compute in
    match fst (fetch_market_news env_ai_news world_news_ok []) with
    | inr (PyList l) => l
    | _ => []
    end.

Definition billing (cost : pyval) : pyval :=
  PyDict [(u "billing_info", PyDict [(u "total_cost", cost)])].

(** A reply with a cost in both places. *)
Definition both_costs_reply : pyval :=
  PyDict [(u "output", PyStr (u "plain narrative"));
          (u "usage", billing (PyInt 7));
          (u "metadata", billing (PyInt 5))].

(** A reply whose first cost is zero. *)
Definition zero_cost_reply : pyval :=
  PyDict [(u "output", PyStr (u "plain narrative"));
          (u "usage", billing (PyInt 0));
          (u "metadata", billing (PyInt 5))].

(** SPY is answered; the AI service replies with [zero_cost_reply]. *)
Definition world_zero_cost : world :=
  world_of [(yahoo_url (u "SPY"), json_response good_chart);
            (swarms_url, json_response zero_cost_reply)].

(** The result of a run on SPY alone that reports [cost]. *)
Definition result_with (cost : pyval) : pyval :=
  PyDict [(u "success", PyBool true);
          (u "analysis", PyStr (u "plain narrative"));
          (u "symbolsAnalyzed", PyInt 1);
          (u "cost", cost)].

(** The mapping a run builds when only SPY is answered. *)
Definition spy_only_mapping : dict :=
  combine symbols (spy_quote :: repeat (error_entry network_lost) 5).

(** The mapping a run builds in [world_open_null]. *)
Definition open_null_mapping : dict :=
  combine symbols (spy_quote_open_null :: repeat (error_entry network_lost) 5).

(** What the news fetcher returns without its credential. *)
Definition news_not_configured : pyval :=
  PyStr (u "Market news unavailable: FMP_API_KEY not configured. Sign up at https://financialmodelingprep.com/developer/docs").

(** What the news fetcher returns in [world_news_500]. *)
Definition news_500_note : pyval :=
  PyStr (u "Market news unavailable: HTTP 500: incorporating news catalysts - Server error on Financial Modeling Prep side. Try again later.").


(** SPY is answered with status 404. *)
Definition spy_not_found : response :=
  text_response 404 (u "Not Found") (u "No data found").

Definition world_spy_404 : world :=
  world_of [(yahoo_url (u "SPY"), spy_not_found)].

(** The bar of [good_chart] with a previous close of zero. *)
Definition zero_previous_chart : pyval :=
  chart_payload [PyInt 1735822800]
                [PyFloat 9950] [PyFloat 10100] [PyFloat 9900] [PyFloat 10025]
                [PyInt 1000000]
                [(u "regularMarketPrice", PyFloat 10025);
                 (u "previousClose", PyInt 0);
                 (u "currency", PyStr (u "USD"))].

Definition zero_previous_quote : pyval :=
  Eval vm_compute in
    match quote_of_chart (u "SPY") zero_previous_chart with
    | inr q => q
    | inl _ => PyNone
    end.

(** The news provider answers 403. *)
Definition news_forbidden : response :=
  text_response 403 (u "Forbidden") (u "denied").

Definition world_news_403 : world :=
  world_of [(news_url (PyStr (u "fmp-test")), news_forbidden)].

(** The news provider answers a list whose second item is not an object. *)
Definition malformed_news : response :=
  json_response (PyList [short_article; PyStr (u "oops")]).

Definition world_news_malformed : world :=
  world_of [(news_url (PyStr (u "fmp-test")), malformed_news)].

(** SPY is answered; the AI service answers [resp]. *)
Definition world_ai (resp : response) : world :=
  world_of [(yahoo_url (u "SPY"), json_response good_chart); (swarms_url, resp)].

Definition ai_overloaded : response :=
  Response 500 (u "Internal Server Error") (inr (u "overloaded"))
           (inl (Exn ValueError (u "Expecting value: line 1 column 1 (char 0)"))).

Definition empty_output_reply : pyval := PyDict [(u "output", PyStr [])].

Definition null_usage_reply : pyval :=
  PyDict [(u "output", PyStr (u "plain narrative")); (u "usage", PyNone)].

Definition text_agents_reply : pyval :=
  PyDict [(u "output", PyList [PyStr (u "plain narrative")])].

(** Closing prices with gaps, the last one null. *)
Definition gapped_closes : list pyval :=
  [PyFloat 9900; PyNone; PyFloat 10025; PyNone].

Definition one_close : list pyval := [PyFloat 9900].

(** All three email credentials set. *)
Definition env_mail : env :=
  Env (Some (PyStr (u "sk-test"))) None
      (Some (PyStr (u "key-test"))) (Some (PyStr (u "mg.example.com")))
      (Some (PyStr (u "desk@example.com"))).

(** The mail provider accepts the message. *)
Definition world_mail : world :=
  world_of [(mailgun_url (PyStr (u "mg.example.com")),
             Response 200 (u "OK") (inr (u "Queued.")) (inr (PyDict [])))].

(** A mapping whose change_percent is a text. *)
Definition text_percent_mapping : dict :=
  [(u "SPY", PyDict [(u "change_percent", PyStr (u "3.5"))])].

End Scenarios.

(** The entry built for SPY from [good_chart] in the other process, and the
    mapping of a run there when only SPY is answered. *)
Definition spy_quote_salted : @pyval salted_runtime :=
  Eval vm_compute in
    match @quote_of_chart salted_runtime (u "SPY") good_chart with
    | inr q => q
    | inl _ => PyNone
    end.

Definition spy_only_mapping_salted : @dict salted_runtime :=
  combine symbols
    (spy_quote_salted :: repeat (@error_entry salted_runtime network_lost) 5).

(** * Properties *)

Section Theorems.
Context {RT : PyRuntime}.

(** ** Strings *)

Lemma str_eqb_eq (a b : str) : str_eqb a b = true <-> a = b.
Proof.
  revert b; induction a as [|x a IH]; intros [|y b]; simpl; split; intros H;
    try reflexivity; try discriminate.
  - apply andb_true_iff in H as [Hx Hr]. apply N.eqb_eq in Hx.
    apply IH in Hr. now subst.
  - injection H as -> ->. rewrite N.eqb_refl. simpl. now apply IH.
Qed.

Lemma str_eqb_refl (a : str) : str_eqb a a = true.
Proof. now apply str_eqb_eq. Qed.

Lemma is_prefix_spec (p s : str) :
  is_prefix p s = true <-> exists r, s = p ++ r.
Proof.
  revert s; induction p as [|x p IH]; intros s; simpl.
  - split; [intros _; now exists s | reflexivity].
  - destruct s as [|y s]; split.
    + discriminate.
    + intros [r Hr]. discriminate.
    + intros H. apply andb_true_iff in H as [Hx Hr]. apply N.eqb_eq in Hx.
      apply IH in Hr as [r ->]. subst. now exists r.
    + intros [r Hr]. injection Hr as -> ->. rewrite N.eqb_refl. simpl.
      apply IH. now exists r.
Qed.

Lemma is_substring_unfold (p s : str) :
  is_substring p s =
  is_prefix p s || match s with [] => false | _ :: s' => is_substring p s' end.
Proof. destruct s; reflexivity. Qed.

Lemma is_substring_spec (p s : str) :
  is_substring p s = true <-> exists a b, s = a ++ p ++ b.
Proof.
  induction s as [|c s IH]; rewrite is_substring_unfold.
  - rewrite orb_false_r, is_prefix_spec. split.
    + intros [r Hr]. now exists [], r.
    + intros (a & b & H). destruct a; [now exists b | discriminate].
  - rewrite orb_true_iff, is_prefix_spec, IH. split.
    + intros [[r Hr] | (a & b & H)].
      * now exists [], r.
      * exists (c :: a), b. simpl. now rewrite H.
    + intros (a & b & H). destruct a as [|x a].
      * left. now exists b.
      * right. injection H as _ H. now exists a, b.
Qed.

Lemma is_substring_mid (p a b : str) : is_substring p (a ++ p ++ b) = true.
Proof. apply is_substring_spec. now exists a, b. Qed.

Lemma is_substring_trans (p q s : str) :
  is_substring p q = true -> is_substring q s = true -> is_substring p s = true.
Proof.
  rewrite !is_substring_spec. intros (a & b & ->) (c & d & ->).
  exists (c ++ a), (b ++ d). now rewrite <- !app_assoc.
Qed.

Lemma is_substring_app_l (p a b : str) :
  is_substring p a = true -> is_substring p (a ++ b) = true.
Proof.
  rewrite !is_substring_spec. intros (x & y & ->).
  exists x, (y ++ b). now rewrite <- !app_assoc.
Qed.

Lemma is_substring_app_r (p a b : str) :
  is_substring p b = true -> is_substring p (a ++ b) = true.
Proof.
  rewrite !is_substring_spec. intros (x & y & ->).
  exists (a ++ x), y. now rewrite <- !app_assoc.
Qed.

(** ** Computations *)

Lemma rbind_inr {A B} (m : result A) (k : A -> result B) (b : B) :
  rbind m k = inr b -> exists a, m = inr a /\ k a = inr b.
Proof. destruct m as [e|a]; simpl; [discriminate | now exists a]. Qed.

(** Splits a successful chain of [let?] into its steps. *)
Ltac rinv H :=
  lazymatch type of H with
  | rbind ?m ?k = inr _ =>
      let a := fresh "v" in
      let Ha := fresh "E" in
      apply rbind_inr in H; destruct H as (a & Ha & H); cbv beta in H; rinv H
  | (if ?c then _ else _) = inr _ =>
      let Hc := fresh "C" in
      destruct c eqn:Hc; [first [discriminate H | rinv H] | first [discriminate H | rinv H]]
  | rraise _ _ = inr _ => discriminate H
  | rret _ = inr _ => unfold rret in H
  | _ => idtac
  end.

(** ** Quote fetcher *)

Lemma py_sub_number (a b c : pyval) :
  py_sub a b = inr c -> is_number a = true /\ is_number c = true.
Proof.
  unfold py_sub, is_number.
  destruct (as_number a) as [[x|x]|]; destruct (as_number b) as [[y|y]|];
    try discriminate; unfold to_flt;
    try (destruct (flt_of_int _); simpl);
    intros H; inversion H; subst; auto.
Qed.

Lemma py_round2_number (p x : pyval) :
  py_round2 p = inr x -> is_number x = true.
Proof.
  unfold py_round2, is_number.
  destruct (as_number p) as [[y|y]|]; intros H; inversion H; reflexivity.
Qed.

Lemma quote_of_chart_shape (symbol : str) (response_data q : pyval) :
  quote_of_chart symbol response_data = inr q -> entry_shape symbol q.
Proof.
  unfold quote_of_chart. intros H. rinv H.
  injection H as <-.
  match goal with
  | Hs : py_sub _ _ = inr _ |- _ => apply py_sub_number in Hs as [Hp Hc]
  end.
  constructor; auto.
  match goal with
  | Hp : (if truthy ?x then _ else _) = inr _ |- _ => destruct (truthy x)
  end.
  - match goal with
    | Hp : rbind _ _ = inr _ |- _ => rinv Hp; now apply py_round2_number in Hp
    end.
  - match goal with
    | Hp : rret _ = inr _ |- _ => now injection Hp as <-
    end.
Qed.

Lemma quote_entry_for (symbol : str) (w : world) (t : trace) :
  exists d,
    try_catch (quote_for_symbol symbol) (fun error => ret (error_entry error)) w t
    = (inr d, t ++ [yahoo_request symbol])
    /\ entry_shape symbol d.
Proof.
  unfold try_catch, quote_for_symbol, bind, fetch.
  destruct (w t (yahoo_request symbol)) as [e|resp].
  - eexists; split; [reflexivity | constructor].
  - destruct (ok resp); simpl.
    + unfold lift. destruct (body_json resp) as [e|response_data].
      * eexists; split; [reflexivity | constructor].
      * destruct (quote_of_chart symbol response_data) as [e|q] eqn:Hq.
        -- eexists; split; [reflexivity | constructor].
        -- exists q; split; [reflexivity | now apply quote_of_chart_shape in Hq].
    + eexists; split; [reflexivity | constructor].
Qed.

Lemma fetch_symbols_spec (todo : list str) :
  forall (acc : dict) (w : world) (t : trace),
  exists entries,
    Forall2 entry_shape todo entries
    /\ fetch_symbols todo acc w t
       = (inr (fold_left (fun d p => dict_set d (fst p) (snd p)) (combine todo entries) acc),
          t ++ map yahoo_request todo).
Proof.
  induction todo as [|symbol rest IH]; intros acc w t.
  - exists []. split; [constructor | simpl; now rewrite app_nil_r].
  - destruct (quote_entry_for symbol w t) as (d & Hd & Hshape).
    destruct (IH (dict_set acc symbol d) w (t ++ [yahoo_request symbol]))
      as (entries & Hall & Hrest).
    exists (d :: entries). split; [now constructor|].
    simpl. unfold bind at 1. rewrite Hd, Hrest. now rewrite <- app_assoc.
Qed.

(** The mapping has the six symbols as its keys, in order, each with an
    entry of one of the two shapes; the run made one request per symbol. *)
Lemma fetch_market_data_shape (w : world) (t : trace) :
  exists entries,
    Forall2 entry_shape symbols entries
    /\ fetch_market_data w t = (inr (combine symbols entries), t ++ map yahoo_request symbols).
Proof.
  destruct (fetch_symbols_spec symbols [] w t) as (entries & Hall & Heq).
  exists entries. split; [assumption|].
  unfold fetch_market_data. rewrite Heq. f_equal. f_equal.
  unfold symbols in *.
  repeat match goal with
         | H : Forall2 _ (_ :: _) _ |- _ => inversion H; subst; clear H
         | H : Forall2 _ [] _ |- _ => inversion H; subst; clear H
         end.
  reflexivity.
Qed.

Lemma Forall2_combine_in {A B} (P : A -> B -> Prop) (l1 : list A) (l2 : list B) a b :
  Forall2 P l1 l2 -> In (a, b) (combine l1 l2) -> P a b.
Proof.
  induction 1 as [|x y l1 l2 Hxy _ IH]; simpl; [tauto|].
  intros [Heq | Hin]; [now injection Heq as <- <- | auto].
Qed.

Lemma Forall2_combine_keys {A B} (P : A -> B -> Prop) (l1 : list A) (l2 : list B) :
  Forall2 P l1 l2 -> map fst (combine l1 l2) = l1.
Proof. induction 1; simpl; congruence. Qed.

Lemma rsi_of_range (symbol : str) : 35 <= rsi_of symbol <= 64.
Proof.
  unfold rsi_of. pose proof (Z.mod_pos_bound (hash symbol) 30). lia.
Qed.

Lemma entry_shape_rsi (symbol : str) (d : pyval) :
  entry_shape symbol d -> error_clear d = true ->
  field (u "rsi") d = Some (PyInt (rsi_of symbol)).
Proof.
  intros [] Hclear; [reflexivity | discriminate Hclear].
Qed.

Lemma entry_shape_invariant (symbol : str) (d : pyval) :
  entry_shape symbol d -> quote_entry_invariant d = true.
Proof.
  intros [price open_price high low volume change pct date currency state hi52 lo52
            Hprice Hchange Hpct | error].
  - destruct price; try discriminate Hprice;
      destruct change; try discriminate Hchange;
      destruct pct; try discriminate Hpct; reflexivity.
  - reflexivity.
Qed.


(** ** Orchestrator: the two early failures *)

(** C3. When SWARMS_API_KEY is absent or falsy (None, the empty string),
    the run ends with [{success: False, error: 'SWARMS_API_KEY is
    required'}] and the trace of outbound requests is unchanged: no call was
    made. *)
Theorem missing_ai_key_fails_first (e : env) (w : world) (t : trace) :
  attr_set (SWARMS_API_KEY e) = false ->
  handle_stock_analysis e w t
  = (inr (PyDict [(u "success", PyBool false);
                  (u "error", PyStr (u "SWARMS_API_KEY is required"))]), t).
Proof.
  intros Hkey. unfold handle_stock_analysis, try_catch, handle_stock_analysis_try.
  rewrite Hkey. reflexivity.
Qed.

Lemma valid_symbols_all_failed (keys : list str) (entries : list pyval) :
  Forall2 entry_shape keys entries ->
  (forall s d, In (s, d) (combine keys entries) -> has_error d = true) ->
  valid_symbols (combine keys entries) = inr [].
Proof.
  induction 1 as [|k d keys entries Hshape _ IH]; intros Hall; [reflexivity|].
  simpl. destruct Hshape as [| error].
  - specialize (Hall _ _ (or_introl eq_refl)). discriminate Hall.
  - rewrite IH; [reflexivity|]. intros s d Hin. apply (Hall s d). now right.
Qed.

(** C2. With the AI credential set, when every entry of the quote fetcher's
    mapping carries an error marker the run ends with [{success: False,
    error: 'No valid market data retrieved'}], and the requests it made are
    the six quote requests: none goes to the AI completion service, none to
    the email provider. *)
Theorem outage_fails_before_analysis (e : env) (w : world) (t t1 : trace) (md : dict) :
  attr_set (SWARMS_API_KEY e) = true ->
  fetch_market_data w t = (inr md, t1) ->
  (forall s d, In (s, d) md -> has_error d = true) ->
  exists new,
    handle_stock_analysis e w t
    = (inr (PyDict [(u "success", PyBool false);
                    (u "error", PyStr (u "No valid market data retrieved"))]),
       t ++ new)
    /\ new = map yahoo_request symbols
    /\ existsb contacts_swarms new = false
    /\ existsb contacts_mailgun new = false.
Proof.
  intros Hkey Hrun Hall.
  destruct (fetch_market_data_shape w t) as (entries & Hshape & Heq).
  rewrite Heq in Hrun. injection Hrun as <- <-.
  exists (map yahoo_request symbols). repeat split.
  unfold handle_stock_analysis, try_catch, handle_stock_analysis_try.
  rewrite Hkey. simpl. unfold bind at 1. rewrite Heq.
  unfold bind at 1, lift at 1.
  now rewrite (valid_symbols_all_failed _ _ Hshape Hall).
Qed.

(** ** Request router *)

(** C6, amended. When the final segment of the URL (what follows its last
    slash, without the query) is not empty, not [trigger] and not [status],
    the router answers the plain text [Not Found] with status 404, and makes
    no outbound call. *)
Theorem unknown_segment_not_found (url : str) (e : env) (w : world) (t : trace) :
  path_of url <> [] ->
  path_of url <> u "trigger" ->
  path_of url <> u "status" ->
  on_fetch url e w t = (inr (HttpResponse (u "Not Found") 404 []), t).
Proof.
  intros H0 H1 H2. unfold on_fetch.
  destruct (str_eqb (path_of url) []) eqn:E0; [now apply str_eqb_eq in E0|].
  destruct (str_eqb (path_of url) (u "trigger")) eqn:E1; [now apply str_eqb_eq in E1|].
  destruct (str_eqb (path_of url) (u "status")) eqn:E2; [now apply str_eqb_eq in E2|].
  reflexivity.
Qed.

(** ** News fetcher *)

Lemma ends_with_app (a suffix : str) : ends_with suffix (a ++ suffix) = true.
Proof.
  unfold ends_with. rewrite rev_app_distr. apply is_prefix_spec. now eexists.
Qed.

Lemma map_result_Forall2 {A B} (f : A -> result B) (l : list A) (l' : list B) :
  map_result f l = inr l' -> Forall2 (fun a b => f a = inr b) l l'.
Proof.
  revert l'; induction l as [|x l IH]; intros l' H; simpl in H.
  - injection H as <-. constructor.
  - rinv H. injection H as <-. constructor; auto.
Qed.

Lemma process_article_spec (article record : pyval) :
  process_article article = inr record ->
  is_news_article record = true /\ record_of_article article record.
Proof.
  unfold process_article. intros H.
  destruct article as [| | | | | |kv]; try discriminate H.
  rinv H. injection H as <-. split; [reflexivity|].
  repeat match goal with
         | E : py_get (PyDict _) _ _ = inr _ |- _ =>
             unfold py_get, rret in E; injection E as E
         end.
  unfold record_of_article, text_follows, field.
  match goal with
  | E : (if truthy ?t then _ else _) = inr ?txt |- _ =>
      destruct (truthy t) eqn:Ht
  end.
  - match goal with
    | E : rbind _ _ = inr _ |- _ => rinv E
    end.
    repeat match goal with
           | E : py_get (PyDict _) _ _ = inr _ |- _ =>
               unfold py_get, rret in E; injection E as E
           end.
    destruct (lookup (u "text") kv) as [src|]; subst; [|discriminate Ht].
    match goal with
    | E : slice_300 ?x = inr _ |- _ => destruct x; try discriminate E;
                                        injection E as <-
    end;
    match goal with
    | E : add_ellipsis _ = inr _ |- _ => try discriminate E; injection E as <-
    end.
    match goal with
    | Ht : truthy (PyStr ?s) = true |- _ => exists (firstn 300 s ++ u "...")
    end.
    split; [reflexivity|]. split.
    + rewrite length_app, length_firstn.
      change (List.length (u "...")) with 3%nat. lia.
    + left. eexists. repeat split.
      * intros ->. discriminate Ht.
      * apply ends_with_app.
  - match goal with
    | E : rret _ = inr _ |- _ => injection E as <-
    end.
    exists (u "No content available"). split; [reflexivity|].
    split; [change (List.length (u "No content available")) with 20%nat; lia|].
    right. split; [|reflexivity].
    destruct (lookup (u "text") kv) as [src|]; [right | now left].
    exists src. split; [reflexivity | now subst].
Qed.

Lemma news_error_text_unavailable (error : exn) :
  is_substring (u "unavailable") (news_error_text error) = true.
Proof.
  unfold news_error_text.
  destruct (is_substring (u "403") (exn_str error)); [reflexivity|].
  destruct (is_substring (u "401") (exn_str error)); [reflexivity|].
  destruct (is_substring (u "429") (exn_str error)); [reflexivity|].
  apply is_substring_app_l. reflexivity.
Qed.

(** What the [try] of the news fetcher returns when it does not raise: one
    of its fixed notes, or the records made from the first five articles of
    the provider's list. *)
Lemma fetch_market_news_try_inr (e : env) (w : world) (t t' : trace) (v : pyval) :
  fetch_market_news_try e w t = (inr v, t') ->
  (exists s, v = PyStr s /\ is_substring (u "unavailable") s = true)
  \/ (exists resp articles records,
         w t (news_request (attr_value (FMP_API_KEY e))) = inr resp
         /\ body_json resp = inr (PyList articles)
         /\ map_result process_article (firstn 5 articles) = inr records
         /\ v = PyList records).
Proof.
  unfold fetch_market_news_try.
  destruct (attr_set (FMP_API_KEY e)); cbn [negb].
  2:{ intros H. injection H as <- _. left. eexists. split; reflexivity. }
  unfold bind at 1, lift at 1.
  destruct (replace_arg (attr_value (FMP_API_KEY e))); [discriminate|].
  unfold bind at 1, fetch.
  destruct (w t (news_request (attr_value (FMP_API_KEY e)))) as [err|resp] eqn:Hw;
    [discriminate|].
  destruct (ok resp); cbn [negb]; [|discriminate].
  unfold bind at 1, lift at 1.
  destruct (body_json resp) as [err|news_data] eqn:Hjson; [discriminate|].
  destruct news_data as [| | | | |articles|];
    try (intros H; injection H as <- _; left; eexists; split; reflexivity).
  destruct articles as [|a articles];
    [intros H; injection H as <- _; left; eexists; split; reflexivity|].
  unfold bind, lift.
  destruct (map_result process_article (firstn 5 (a :: articles))) as [err|records] eqn:Hmap;
    [discriminate|].
  intros H. injection H as <- _. right. now exists resp, (a :: articles), records.
Qed.

(** The news fetcher returns, and what it returns is a short list of
    records or a note saying the news is unavailable. *)
Lemma fetch_market_news_returns (e : env) (w : world) (t : trace) :
  exists v t',
    fetch_market_news e w t = (inr v, t')
    /\ ((exists records, v = PyList records
                         /\ (List.length records <= 5)%nat
                         /\ forallb is_news_article records = true)
        \/ (exists s, v = PyStr s /\ is_substring (u "unavailable") s = true)).
Proof.
  unfold fetch_market_news, try_catch.
  destruct (fetch_market_news_try e w t) as [[error|v] t'] eqn:Htry.
  - eexists _, _. split; [reflexivity|]. right. eexists. split; [reflexivity|].
    apply news_error_text_unavailable.
  - exists v, t'. split; [reflexivity|].
    apply fetch_market_news_try_inr in Htry
      as [(s & -> & Hs) | (resp & articles & records & _ & _ & Hmap & ->)].
    + right. now exists s.
    + left. exists records. split; [reflexivity|].
      apply map_result_Forall2 in Hmap. split.
      * pose proof (Forall2_length Hmap) as Hlen.
        rewrite length_firstn in Hlen. unfold pyval in *. lia.
      * induction Hmap as [|a r l l' Ha _ IH]; [reflexivity|].
        simpl. apply process_article_spec in Ha as [-> _]. exact IH.
Qed.

(** C4. Whatever the environment holds and whatever the upstream does,
    [fetch_market_news] does not raise: it returns a list of at most five
    NewsArticle records, or a string containing "unavailable". *)
Theorem fetch_market_news_total (e : env) (w : world) (t : trace) :
  exists v t',
    fetch_market_news e w t = (inr v, t')
    /\ ((exists records, v = PyList records
                         /\ (List.length records <= 5)%nat
                         /\ forallb is_news_article records = true)
        \/ (exists s, v = PyStr s /\ is_substring (u "unavailable") s = true)).
Proof. exact (fetch_market_news_returns e w t). Qed.

(** C10. Every record [fetch_market_news] returns was made from one of the
    first five articles of the provider's list, and its text is at most 303
    characters long; it is the article's text cut to 300 characters followed
    by "..." (so it ends with the ellipsis, also when nothing was cut) when
    the article has a non-empty text, and "No content available" when the
    article's text is absent, None or empty. *)
Theorem news_text_bounded (e : env) (w : world) (t t' : trace) (records : list pyval) :
  fetch_market_news e w t = (inr (PyList records), t') ->
  exists resp articles,
    w t (news_request (attr_value (FMP_API_KEY e))) = inr resp
    /\ body_json resp = inr (PyList articles)
    /\ Forall2 record_of_article (firstn 5 articles) records.
Proof.
  unfold fetch_market_news, try_catch.
  destruct (fetch_market_news_try e w t) as [[error|v] t1] eqn:Htry;
    [discriminate|].
  intros H. injection H as -> ->.
  apply fetch_market_news_try_inr in Htry
    as [(s & Hs & _) | (resp & articles & recs & Hw & Hjson & Hmap & Hv)];
    [discriminate|].
  injection Hv as <-.
  exists resp, articles. repeat split; [assumption..|].
  apply map_result_Forall2 in Hmap.
  eapply Forall2_impl; [|exact Hmap].
  intros a r Ha. now apply process_article_spec in Ha.
Qed.

(** ** Orchestrator: the reply of the AI service *)

Lemma bind_inr {A B} (m : M A) (k : A -> M B) (w : world) (t t' : trace) (b : B) :
  bind m k w t = (inr b, t') ->
  exists a t1, m w t = (inr a, t1) /\ k a w t1 = (inr b, t').
Proof.
  unfold bind. destruct (m w t) as [[e|a] t1]; [discriminate|].
  intros H. now exists a, t1.
Qed.

Lemma lift_inr {A} (r : result A) (w : world) (t t' : trace) (a : A) :
  lift r w t = (inr a, t') -> r = inr a /\ t' = t.
Proof. unfold lift. intros H. now injection H as -> ->. Qed.

Lemma carried_cost_at (location : str) (reply c : pyval) :
  carried_cost location reply = Some c -> cost_at location reply = inr c.
Proof.
  unfold carried_cost, field. intros H.
  destruct reply as [| | | | | |kv]; try discriminate H.
  destruct (lookup location kv) as [[| | | | | |section]|] eqn:E1;
    try discriminate H.
  destruct (lookup (u "billing_info") section) as [[| | | | | |billing]|] eqn:E2;
    try discriminate H.
  destruct (lookup (u "total_cost") billing) as [c'|] eqn:E3; [|discriminate H].
  destruct (is_none c'); [discriminate H|]. injection H as ->.
  cbv beta iota delta [cost_at py_get rbind rret].
  rewrite E1. cbv beta iota. rewrite E2. cbv beta iota. now rewrite E3.
Qed.

Lemma cost_unset_at (location : str) (kv : dict) :
  cost_unset location (PyDict kv) = true ->
  exists c, cost_at location (PyDict kv) = inr c /\ truthy c = false.
Proof.
  unfold cost_unset, field. intros H.
  cbv beta iota delta [cost_at py_get rbind rret].
  destruct (lookup location kv) as [[| | | | | |section]|] eqn:E1;
    try discriminate H; cbv beta iota.
  - destruct (lookup (u "billing_info") section) as [[| | | | | |billing]|] eqn:E2;
      try discriminate H; cbv beta iota.
    + destruct (lookup (u "total_cost") billing) as [c'|] eqn:E3.
      * exists c'. split; [reflexivity|]. now apply negb_true_iff in H.
      * now exists PyNone.
    + now exists PyNone.
  - now exists PyNone.
Qed.

Lemma build_result_cost (e : env) (md : dict) (valid : list str) (reply res : pyval)
    (w : world) (t t' : trace) :
  build_result e md valid reply w t = (inr res, t') ->
  exists kv c, reply = PyDict kv /\ billing_cost reply = inr c
               /\ field (u "cost") res = Some c.
Proof.
  unfold build_result. intros H.
  apply bind_inr in H as (output & t1 & Hout & H).
  apply lift_inr in Hout as [Hout ->].
  destruct reply as [| | | | | |kv]; try discriminate Hout.
  destruct (truthy output); cbn [negb] in H; [|discriminate H].
  apply bind_inr in H as (c & t1 & Hcost & H).
  apply lift_inr in Hcost as [Hcost ->].
  apply bind_inr in H as (output' & t1 & _ & H).
  apply bind_inr in H as (formatted & t2 & _ & H).
  apply bind_inr in H as (sent & t3 & _ & H).
  injection H as <- _.
  now exists kv, c.
Qed.

(** C9, amended. For a run that reaches its result: when the reply carries
    a truthy (non-zero) cost at usage.billing_info.total_cost, the reported
    cost is that one, whatever metadata holds; when the reply has no cost to
    prefer there (absent, None or zero) and carries one at
    metadata.billing_info.total_cost, the reported cost is that of
    metadata. *)
Theorem reported_cost_prefers_truthy_usage (e : env) (md : dict) (valid : list str)
    (reply res : pyval) (w : world) (t t' : trace) :
  build_result e md valid reply w t = (inr res, t') ->
  (forall c1, carried_cost (u "usage") reply = Some c1 -> truthy c1 = true ->
              field (u "cost") res = Some c1)
  /\ (forall c2, cost_unset (u "usage") reply = true ->
                 carried_cost (u "metadata") reply = Some c2 ->
                 field (u "cost") res = Some c2).
Proof.
  intros H. apply build_result_cost in H as (kv & c & -> & Hcost & Hres).
  unfold billing_cost in Hcost. split.
  - intros c1 H1 Ht. apply carried_cost_at in H1. rewrite H1 in Hcost.
    cbn [rbind] in Hcost. rewrite Ht in Hcost. now injection Hcost as <-.
  - intros c2 H1 H2. apply cost_unset_at in H1 as (c1 & H1 & Ht).
    apply carried_cost_at in H2. rewrite H1 in Hcost.
    cbn [rbind] in Hcost. rewrite Ht, H2 in Hcost. now injection Hcost as <-.
Qed.

(** ** The trace only grows *)

Lemma grows_ret {A} (a : A) : grows (ret a).
Proof. intros w t. exists []. simpl. now rewrite app_nil_r. Qed.

Lemma grows_raise {A} (c : exn_class) (msg : str) : grows (@raise _ A c msg).
Proof. intros w t. exists []. simpl. now rewrite app_nil_r. Qed.

Lemma grows_lift {A} (r : result A) : grows (lift r).
Proof. intros w t. exists []. simpl. now rewrite app_nil_r. Qed.

Lemma grows_fetch (r : request) : grows (fetch r).
Proof. intros w t. now exists [r]. Qed.

Lemma grows_bind {A B} (m : M A) (k : A -> M B) :
  grows m -> (forall a, grows (k a)) -> grows (bind m k).
Proof.
  intros Hm Hk w t. unfold bind. destruct (Hm w t) as [r1 H1].
  destruct (m w t) as [[e|a] t1]; simpl in H1; subst.
  - now exists r1.
  - destruct (Hk a w (t ++ r1)) as [r2 H2]. exists (r1 ++ r2).
    now rewrite H2, app_assoc.
Qed.

Lemma grows_try_catch {A} (m : M A) (h : exn -> M A) :
  grows m -> (forall e, grows (h e)) -> grows (try_catch m h).
Proof.
  intros Hm Hh w t. unfold try_catch. destruct (Hm w t) as [r1 H1].
  destruct (m w t) as [[e|a] t1]; simpl in H1; subst.
  - destruct (Hh e w (t ++ r1)) as [r2 H2]. exists (r1 ++ r2).
    now rewrite H2, app_assoc.
  - now exists r1.
Qed.

Lemma grows_if {A} (c : bool) (m1 m2 : M A) :
  grows m1 -> grows m2 -> grows (if c then m1 else m2).
Proof. now destruct c. Qed.

Ltac grows_tac :=
  repeat first
    [ apply grows_ret | apply grows_raise | apply grows_lift | apply grows_fetch
    | apply grows_if
    | apply grows_bind; [|intro]
    | apply grows_try_catch; [|intro] ].

Lemma grows_send_email_report (e : env) (analysis : str) (md : dict) :
  grows (send_email_report e analysis md).
Proof. unfold send_email_report. grows_tac. Qed.

Lemma grows_build_result (e : env) (md : dict) (valid : list str) (reply : pyval) :
  grows (build_result e md valid reply).
Proof.
  unfold build_result. grows_tac.
Qed.

(** The request to the AI service is the first thing [request_analysis]
    sends. *)
Lemma request_analysis_trace (e : env) (md : dict) (valid : list str) (news : pyval)
    (w : world) (t : trace) :
  exists rest,
    snd (request_analysis e md valid news w t)
    = t ++ swarms_request (build_task md news) :: rest.
Proof.
  unfold request_analysis, bind at 1, fetch.
  destruct (w t (swarms_request (build_task md news))) as [err|resp].
  - now exists [].
  - match goal with
    | |- exists rest, snd (?m w ?t1) = _ =>
        assert (Hg : grows m)
    end.
    { grows_tac. }
    destruct (Hg w (t ++ [swarms_request (build_task md news)])) as [rest Hrest].
    exists rest. rewrite Hrest. now rewrite <- app_assoc.
Qed.

(** The news step always hands a value on. *)
Lemma market_news_step_total (e : env) (w : world) (t : trace) :
  exists news t', market_news_step e w t = (inr news, t').
Proof.
  unfold market_news_step, try_catch.
  destruct (fetch_market_news_returns e w t) as (v & t' & Hv & _).
  rewrite Hv. now exists v, t'.
Qed.

Lemma valid_symbols_some (keys : list str) (entries : list pyval) :
  Forall2 entry_shape keys entries ->
  exists valid,
    valid_symbols (combine keys entries) = inr valid
    /\ forall s d, In (s, d) (combine keys entries) -> has_error d = false -> In s valid.
Proof.
  induction 1 as [|k d keys entries Hshape _ (valid & Hvalid & Hin)].
  - exists []. split; [reflexivity | intros s d []].
  - simpl. rewrite Hvalid. destruct Hshape as [| error].
    + eexists. split; [reflexivity|].
      intros s d [Heq | Hrest] Herr.
      * injection Heq as <- <-. now left.
      * right. eauto.
    + eexists. split; [reflexivity|].
      intros s d [Heq | Hrest] Herr.
      * injection Heq as <- <-. discriminate Herr.
      * eauto.
Qed.

(** ** The task sent to the AI service *)

Lemma is_substring_head (p b : str) : is_substring p (p ++ b) = true.
Proof. apply (is_substring_mid p [] b). Qed.

Lemma join_in (sep p : str) (parts : list str) :
  In p parts -> is_substring p (join sep parts) = true.
Proof.
  induction parts as [|q parts IH]; [intros []|].
  intros [-> | Hin].
  - destruct parts; simpl.
    + rewrite <- (app_nil_r p) at 2. apply is_substring_head.
    + apply is_substring_head.
  - destruct parts as [|q' parts]; [destruct Hin|].
    change (join sep (q :: q' :: parts)) with (q ++ sep ++ join sep (q' :: parts)).
    apply is_substring_app_r, is_substring_app_r. auto.
Qed.

Lemma dumps_at_dict (indent : option nat) (level : nat) (p : str * pyval) (rest : dict) :
  dumps_at indent level (PyDict (p :: rest))
  = u "{" ++ newline_indent indent (S level)
    ++ join (item_sep indent (S level))
         (map (fun q => json_str (fst q) ++ u ": " ++ dumps_at indent (S level) (snd q))
              (p :: rest))
    ++ newline_indent indent level ++ u "}".
Proof. reflexivity. Qed.

Lemma dumps_mentions (s : str) (d : pyval) (md : dict) :
  In (s, d) md -> mentions s (json_dumps_indent2 (PyDict md)) = true.
Proof.
  intros Hin. unfold mentions, json_dumps_indent2.
  destruct md as [|p rest]; [destruct Hin|].
  rewrite dumps_at_dict.
  apply is_substring_app_r, is_substring_app_r, is_substring_app_l.
  eapply is_substring_trans; [|apply join_in, in_map, Hin].
  cbn [fst snd]. rewrite app_assoc. apply is_substring_head.
Qed.

Lemma build_task_data (md : dict) (news : pyval) :
  is_substring (json_dumps_indent2 (PyDict md)) (build_task md news) = true.
Proof.
  unfold build_task. do 6 apply is_substring_app_r. apply is_substring_head.
Qed.

Lemma try_catch_ret_trace {A} (m : M A) (f : exn -> A) (w : world) (t : trace) :
  snd (try_catch m (fun error => ret (f error)) w t) = snd (m w t).
Proof. unfold try_catch. now destruct (m w t) as [[err|a] t']. Qed.

Lemma combine_in_l {A B} (l1 : list A) (l2 : list B) (a : A) :
  List.length l1 = List.length l2 -> In a l1 -> exists b, In (a, b) (combine l1 l2).
Proof.
  revert l2; induction l1 as [|x l1 IH]; intros [|y l2] Hlen Hin;
    try discriminate Hlen; [destruct Hin|].
  destruct Hin as [-> | Hin].
  - exists y. now left.
  - injection Hlen as Hlen. destruct (IH l2 Hlen Hin) as [b Hb]. exists b. now right.
Qed.


(** ** The news directive of the task *)

Lemma is_substring_split (c : codepoint) (p x y : str) :
  p <> [] -> existsb (N.eqb c) p = false ->
  is_substring p (x ++ c :: y) = is_substring p x || is_substring p y.
Proof.
  intros Hne Hc. apply Bool.eq_iff_eq_true.
  rewrite orb_true_iff, !is_substring_spec. split.
  - intros (a & b & H).
    apply app_eq_app in H as [l [[Hx Hpb] | [Ha Hy]]].
    + apply app_eq_app in Hpb as [m [[Hp Hcy] | [Hl Hb]]].
      * destruct m as [|c' m].
        -- left. exists a, []. rewrite app_nil_r in Hp. subst.
           now rewrite app_nil_r.
        -- injection Hcy as <- _. subst p. rewrite existsb_app in Hc.
           simpl in Hc. rewrite N.eqb_refl in Hc.
           now rewrite orb_true_r in Hc.
      * left. exists a, m. subst. reflexivity.
    + destruct l as [|c' l].
      * simpl in Hy. destruct p as [|c' p]; [contradiction|].
        injection Hy as <- _. simpl in Hc. now rewrite N.eqb_refl in Hc.
      * injection Hy as _ ->. right. now exists l, b.
  - intros [(a & b & ->) | (a & b & ->)].
    + exists a, (b ++ c :: y). now rewrite <- !app_assoc.
    + exists (x ++ c :: a), b. now rewrite <- app_assoc.
Qed.

Lemma is_substring_drop (c : codepoint) (p y : str) :
  p <> [] -> existsb (N.eqb c) p = false ->
  is_substring p (c :: y) = is_substring p y.
Proof.
  intros Hne Hc. change (c :: y) with ([] ++ c :: y).
  rewrite (is_substring_split c p [] y Hne Hc).
  destruct p; [contradiction | reflexivity].
Qed.

Lemma is_substring_skip (c : codepoint) (p' x s : str) :
  existsb (N.eqb c) x = false ->
  is_substring (c :: p') (x ++ s) = is_substring (c :: p') s.
Proof.
  induction x as [|a x IH]; [reflexivity|].
  intros H. simpl in H. apply orb_false_iff in H as [Hca Hx].
  change ((a :: x) ++ s) with (a :: (x ++ s)).
  rewrite is_substring_unfold. simpl is_prefix. rewrite Hca. simpl. auto.
Qed.

Lemma build_task_unavailable (md : dict) (s : str) :
  news_unavailable (PyStr s) = true ->
  build_task md (PyStr s)
  = task_head ++ nl :: json_dumps_indent2 (PyDict md)
    ++ nl :: nl :: (u "NEWS STATUS: " ++ s) ++ nl :: degraded_tail.
Proof.
  intros H. unfold build_task, news_section. rewrite H. cbn [negb py_str].
  unfold task_head, degraded_tail.
  repeat rewrite <- app_assoc. reflexivity.
Qed.

Lemma news_phrase_unavailable (md : dict) (s : str) :
  news_unavailable (PyStr s) = true ->
  is_substring news_phrase (build_task md (PyStr s))
  = is_substring news_phrase (json_dumps_indent2 (PyDict md))
    || is_substring news_phrase s.
Proof.
  intros H. rewrite (build_task_unavailable md s H).
  assert (Hne : news_phrase <> []) by discriminate.
  assert (Hnl : existsb (N.eqb nl) news_phrase = false) by reflexivity.
  rewrite (is_substring_split nl news_phrase task_head _ Hne Hnl).
  rewrite (is_substring_split nl news_phrase (json_dumps_indent2 (PyDict md)) _ Hne Hnl).
  rewrite (is_substring_drop nl news_phrase _ Hne Hnl).
  rewrite (is_substring_split nl news_phrase (u "NEWS STATUS: " ++ s) _ Hne Hnl).
  change news_phrase with (105%N :: u "ncorporating news catalysts") at 3.
  rewrite (is_substring_skip 105%N _ (u "NEWS STATUS: ") s eq_refl).
  change (105%N :: u "ncorporating news catalysts") with news_phrase.
  replace (is_substring news_phrase task_head) with false by reflexivity.
  replace (is_substring news_phrase degraded_tail) with false by reflexivity.
  cbn [orb]. now rewrite orb_false_r.
Qed.

(** C7, amended. Let [news] be what the news step hands to the analysis.
    Either it is a list of articles, and the task contains the phrase
    "incorporating news catalysts"; or it is the unavailability string, and
    the task carries the line "NEWS STATUS: " followed by that string and
    the degraded instruction, and contains the phrase exactly when text
    taken from upstream does (the serialized market data or the
    unavailability string). *)
Theorem news_directive_follows_news (e : env) (w : world) (t t' : trace)
    (md : dict) (news : pyval) :
  market_news_step e w t = (inr news, t') ->
  (is_list news = true
   /\ news_unavailable news = false
   /\ is_substring news_phrase (build_task md news) = true)
  \/ (exists s,
        news = PyStr s
        /\ news_unavailable news = true
        /\ is_substring (u "NEWS STATUS: " ++ s) (build_task md news) = true
        /\ is_substring degraded_phrase (build_task md news) = true
        /\ is_substring news_phrase (build_task md news)
           = is_substring news_phrase (json_dumps_indent2 (PyDict md))
             || is_substring news_phrase s).
Proof.
  unfold market_news_step, try_catch.
  destruct (fetch_market_news_returns e w t) as (v & t1 & Hv & Hkind).
  rewrite Hv. intros H. injection H as <- <-.
  destruct Hkind as [(records & -> & _) | (s & -> & Hs)].
  - left. repeat split.
    unfold build_task. cbn [news_unavailable negb].
    do 15 apply is_substring_app_r. apply is_substring_head.
  - right. exists s. repeat split; [assumption|..].
    + rewrite (build_task_unavailable md s Hs).
      apply is_substring_app_r.
      apply (is_substring_app_r _ [nl]).
      apply is_substring_app_r.
      apply (is_substring_app_r _ [nl; nl]).
      apply is_substring_head.
    + rewrite (build_task_unavailable md s Hs).
      apply is_substring_app_r.
      apply (is_substring_app_r _ [nl]).
      apply is_substring_app_r.
      apply (is_substring_app_r _ [nl; nl]).
      apply is_substring_app_r.
      apply (is_substring_app_r _ [nl]).
      reflexivity.
    + now apply news_phrase_unavailable.
Qed.

(** * Further properties *)

(** ** Quote fetcher: one entry per answer *)

Lemma quote_entry_answer (symbol : str) (w : world) (t : trace) :
  try_catch (quote_for_symbol symbol) (fun error => ret (error_entry error)) w t
  = (inr (entry_of_answer symbol (w t (yahoo_request symbol))),
     t ++ [yahoo_request symbol]).
Proof.
  unfold try_catch, quote_for_symbol, bind, fetch, entry_of_answer.
  destruct (w t (yahoo_request symbol)) as [e|resp]; [reflexivity|].
  destruct (ok resp); cbn [negb]; [|reflexivity].
  unfold lift. destruct (body_json resp) as [e|data]; [reflexivity|].
  now destruct (quote_of_chart symbol data).
Qed.

Lemma fetch_symbols_entries (todo : list str) :
  forall (acc : dict) (w : world) (t : trace),
    fetch_symbols todo acc w t
    = (inr (fold_left (fun d p => dict_set d (fst p) (snd p))
                      (entries_from w t todo) acc),
       t ++ map yahoo_request todo).
Proof.
  induction todo as [|symbol rest IH]; intros acc w t.
  - simpl. now rewrite app_nil_r.
  - simpl. unfold bind at 1. rewrite quote_entry_answer, IH.
    now rewrite <- app_assoc.
Qed.

Lemma fetch_market_data_entries (w : world) (t : trace) :
  fetch_market_data w t
  = (inr (entries_from w t symbols), t ++ map yahoo_request symbols).
Proof.
  unfold fetch_market_data. rewrite fetch_symbols_entries. reflexivity.
Qed.

Lemma str_eqb_neq (a b : str) : a <> b -> str_eqb a b = false.
Proof.
  intros H. destruct (str_eqb a b) eqn:E; [|reflexivity].
  now apply str_eqb_eq in E.
Qed.

Lemma entries_from_lookup (w : world) (todo : list str) :
  NoDup todo ->
  forall (t : trace) (i : nat) (s : str),
    nth_error todo i = Some s ->
    lookup s (entries_from w t todo)
    = Some (entry_of_answer s
              (w (t ++ map yahoo_request (firstn i todo)) (yahoo_request s))).
Proof.
  induction 1 as [|x todo Hx _ IH]; intros t i s Hi.
  - destruct i; discriminate Hi.
  - destruct i as [|i]; simpl in Hi.
    + injection Hi as ->. simpl. rewrite str_eqb_refl, app_nil_r. reflexivity.
    + assert (Hne : s <> x).
      { intros ->. apply Hx. eapply nth_error_In, Hi. }
      simpl. rewrite (str_eqb_neq _ _ Hne), (IH _ _ _ Hi).
      now rewrite <- app_assoc.
Qed.

Lemma symbols_nodup : NoDup symbols.
Proof.
  unfold symbols.
  repeat (constructor;
          [simpl; intros H;
           repeat (destruct H as [H|H]; [discriminate H|]); exact H|]).
  constructor.
Qed.

Lemma mapping_lookup (w : world) (t : trace) (md : dict) (i : nat) (s : str) :
  fst (fetch_market_data w t) = inr md ->
  nth_error symbols i = Some s ->
  lookup s md
  = Some (entry_of_answer s
            (w (t ++ map yahoo_request (firstn i symbols)) (yahoo_request s))).
Proof.
  rewrite fetch_market_data_entries. cbn [fst]. intros H Hi.
  assert (Hmd : md = entries_from w t symbols) by congruence.
  rewrite Hmd. now apply entries_from_lookup; [apply symbols_nodup|].
Qed.

(** X1. The entry of a symbol is a function of the upstream's answer to the
    request for that symbol alone (the request made after those of the
    symbols before it): what the upstream answers for the other symbols,
    failures included, does not enter it. *)
Theorem entry_depends_on_own_answer (w : world) (t : trace) (md : dict)
    (i : nat) (s : str) :
  fst (fetch_market_data w t) = inr md ->
  nth_error symbols i = Some s ->
  lookup s md
  = Some (entry_of_answer s
            (w (t ++ map yahoo_request (firstn i symbols)) (yahoo_request s))).
Proof. exact (mapping_lookup w t md i s). Qed.

(** X2. When the upstream answers the request for a symbol with a status
    outside 200-299, the symbol's entry is exactly
    [{'error': 'Failed to fetch data: HTTP <status>: <status text>'}]. *)
Theorem http_failure_entry (w : world) (t : trace) (md : dict) (i : nat) (s : str)
    (resp : response) :
  fst (fetch_market_data w t) = inr md ->
  nth_error symbols i = Some s ->
  w (t ++ map yahoo_request (firstn i symbols)) (yahoo_request s) = inr resp ->
  ok resp = false ->
  lookup s md
  = Some (PyDict [(u "error",
                   PyStr (u "Failed to fetch data: HTTP " ++ dec (status resp)
                          ++ u ": " ++ status_text resp))]).
Proof.
  intros Hrun Hi Hw Hok. rewrite (mapping_lookup w t md i s Hrun Hi), Hw.
  unfold entry_of_answer. rewrite Hok. reflexivity.
Qed.

(** ** Quote fetcher: the located bar *)

Lemma getitem_int_list (l : list pyval) (k : nat) :
  (k < List.length l)%nat ->
  exists c, nth_error l k = Some c /\ getitem_int (PyList l) (Z.of_nat k) = inr c.
Proof.
  intros Hk. unfold getitem_int, seq_index. unfold pyval in *.
  match goal with
  | |- context [if ?c then nth_error l (Z.to_nat (Z.of_nat k)) else _] =>
      assert (Hc : c = true)
        by (apply andb_true_iff; split; [apply Z.leb_le | apply Z.ltb_lt]; lia);
      rewrite Hc
  end.
  rewrite Nat2Z.id. destruct (nth_error l k) as [c|] eqn:E.
  - exists c. split; reflexivity.
  - apply nth_error_None in E. lia.
Qed.

Lemma is_none_true (c : pyval) : is_none c = true -> c = PyNone.
Proof. now destruct c. Qed.

(** X3. When the close array is at least as long as the timestamp array,
    the backward scan does not raise and locates the latest bar whose close
    is not None: it returns the greatest index below the number of
    timestamps with a non-None close, and -1 exactly when there is none. *)
Theorem last_close_is_latest (closes : list pyval) (n : nat) :
  (n <= List.length closes)%nat ->
  exists i,
    find_last_close (PyList closes) n = inr i
    /\ ((i = -1 /\ forall j, (j < n)%nat -> nth_error closes j = Some PyNone)
        \/ (0 <= i < Z.of_nat n
            /\ (exists c, nth_error closes (Z.to_nat i) = Some c /\ is_none c = false)
            /\ forall j, (Z.to_nat i < j < n)%nat -> nth_error closes j = Some PyNone)).
Proof.
  induction n as [|k IH]; intros Hlen.
  - exists (-1). split; [reflexivity|]. left. split; [reflexivity|]. lia.
  - assert (Htruthy : truthy (PyList closes) = true).
    { destruct closes; [simpl in Hlen; lia | reflexivity]. }
    destruct (getitem_int_list closes k) as (c & Hc & Hget); [lia|].
    cbn [find_last_close]. rewrite Htruthy. cbn [negb]. rewrite Hget. cbn [rbind].
    destruct (is_none c) eqn:Hnone.
    + apply is_none_true in Hnone. subst c.
      destruct IH as (i & Hi & Hcase); [lia|].
      exists i. split; [assumption|].
      destruct Hcase as [[-> Hall] | (Hrange & Hfound & Hafter)].
      * left. split; [reflexivity|]. intros j Hj.
        destruct (Nat.eq_dec j k) as [->|]; [assumption | apply Hall; lia].
      * right. split; [lia|]. split; [assumption|]. intros j Hj.
        destruct (Nat.eq_dec j k) as [->|]; [assumption | apply Hafter; lia].
    + exists (Z.of_nat k). split; [reflexivity|]. right.
      split; [lia|]. rewrite Nat2Z.id. split; [now exists c|]. lia.
Qed.

(** X4. When the close array is not empty and shorter than the timestamp
    array, the scan starts at an index the close array does not have and
    raises IndexError: the closes that are there are not used. *)
Theorem short_close_array_fails (closes : list pyval) (n : nat) :
  closes <> [] ->
  (List.length closes < n)%nat ->
  exists msg, find_last_close (PyList closes) n = inl (Exn IndexError msg).
Proof.
  intros Hne Hlen. destruct n as [|k]; [lia|].
  assert (Htruthy : truthy (PyList closes) = true) by now destruct closes.
  cbn [find_last_close]. rewrite Htruthy. cbn [negb].
  unfold getitem_int, seq_index. unfold pyval in *.
  match goal with
  | |- context [if ?c && ?d then nth_error closes (Z.to_nat (Z.of_nat k)) else _] =>
      assert (Hd : d = false) by (apply Z.ltb_ge; lia); rewrite Hd
  end.
  assert (Hneg : (Z.of_nat k <? 0) = false) by (apply Z.ltb_ge; lia).
  rewrite Hneg, andb_false_r. cbn [andb rbind]. now eexists.
Qed.

Lemma py_get_dict (v : pyval) (k : str) (default x : pyval) :
  py_get v k default = inr x ->
  exists kv, v = PyDict kv
             /\ x = match lookup k kv with Some y => y | None => default end.
Proof.
  destruct v; try discriminate. intros H. injection H as <-. now eexists.
Qed.

Lemma getitem_str_dict (v : pyval) (k : str) (x : pyval) :
  getitem_str v k = inr x -> exists kv, v = PyDict kv /\ lookup k kv = Some x.
Proof.
  destruct v as [| | | | | |kv]; try discriminate. simpl.
  destruct (lookup k kv) as [y|] eqn:E; [|discriminate].
  intros H. injection H as <-. now exists kv.
Qed.

Lemma py_sub_subtrahend (a b c : pyval) :
  py_sub a b = inr c -> is_number b = true.
Proof.
  unfold py_sub, is_number.
  destruct (as_number a) as [[x|x]|]; destruct (as_number b) as [[y|y]|];
    try discriminate; reflexivity.
Qed.

(** X5. A previous close of zero in the meta does not end in a division
    error.  When a quote is built from a payload whose meta gives a falsy
    previousClose, that previous close is a number (so it is 0, 0.0 or
    False: a null or an empty text makes the subtraction raise and no quote
    is built), and the quote's change_percent is the int 0. *)
Theorem zero_previous_close_gives_zero_percent (symbol : str) (data q pc : pyval) :
  quote_of_chart symbol data = inr q ->
  meta_previous_close data = Some pc ->
  truthy pc = false ->
  is_number pc = true
  /\ field (u "change_percent") q = Some (PyInt 0).
Proof.
  unfold quote_of_chart. intros H Hpc Hfalsy. rinv H. injection H as <-.
  match goal with
  | E : getitem_str data _ = inr ?c |- _ =>
      apply getitem_str_dict in E as (dkv & -> & Hchart)
  end.
  match goal with
  | E : getitem_str _ (u "result") = inr _ |- _ =>
      apply getitem_str_dict in E as (ckv & -> & Hres)
  end.
  unfold meta_previous_close, chart_result, field in Hpc.
  rewrite Hchart, Hres in Hpc.
  match goal with
  | E : getitem_int ?l 0 = inr ?r |- _ =>
      destruct l as [| | | | |[|r0 rs]|]; try discriminate Hpc;
      unfold getitem_int, seq_index in E; cbn in E; injection E as <-
  end.
  match goal with
  | E : py_get r0 (u "meta") _ = inr _ |- _ =>
      apply py_get_dict in E as (rkv & -> & ->)
  end.
  destruct (lookup (u "meta") rkv) as [meta|]; [|discriminate Hpc].
  match goal with
  | E : py_get meta (u "previousClose") _ = inr _ |- _ =>
      apply py_get_dict in E as (mkv & -> & ->)
  end.
  rewrite Hpc in *.
  match goal with
  | E : (if truthy pc then _ else _) = inr _ |- _ =>
      rewrite Hfalsy in E; injection E as <-
  end.
  split; [|reflexivity].
  match goal with
  | E : py_sub _ pc = inr _ |- _ => exact (py_sub_subtrahend _ _ _ E)
  end.
Qed.


(** ** News fetcher: requests and notes *)

(** X6. Without a news credential (attribute missing, None or empty) the
    news fetcher returns its "not configured" note and sends nothing. *)
Theorem news_needs_credential (e : env) (w : world) (t : trace) :
  attr_set (FMP_API_KEY e) = false ->
  fetch_market_news e w t
  = (inr (PyStr (u "Market news unavailable: FMP_API_KEY not configured. Sign up at https://financialmodelingprep.com/developer/docs")),
     t).
Proof.
  intros H. unfold fetch_market_news, try_catch, fetch_market_news_try.
  rewrite H. reflexivity.
Qed.

Lemma bind_lift {A B} (r : result A) (k : A -> M B) (w : world) (t : trace) :
  bind (lift r) k w t
  = match r with
    | inl err => (inl err, t)
    | inr a => k a w t
    end.
Proof. unfold bind, lift. now destruct r. Qed.

Lemma bind_fetch {B} (r : request) (k : response -> M B) (w : world) (t : trace) :
  bind (fetch r) k w t
  = match w t r with
    | inl err => (inl err, t ++ [r])
    | inr resp => k resp w (t ++ [r])
    end.
Proof. unfold bind, fetch. now destruct (w t r). Qed.

Lemma fetch_market_news_try_trace (e : env) (w : world) (t : trace) :
  snd (fetch_market_news_try e w t) = t
  \/ snd (fetch_market_news_try e w t)
     = t ++ [news_request (attr_value (FMP_API_KEY e))].
Proof.
  unfold fetch_market_news_try.
  destruct (attr_set (FMP_API_KEY e)); cbn [negb]; [|now left].
  rewrite bind_lift.
  destruct (replace_arg (attr_value (FMP_API_KEY e))); [now left|].
  right. rewrite bind_fetch.
  destruct (w t (news_request (attr_value (FMP_API_KEY e)))) as [err|resp];
    [reflexivity|].
  destruct (ok resp); cbn [negb]; [|reflexivity].
  rewrite bind_lift.
  destruct (body_json resp) as [err|news_data]; [reflexivity|].
  destruct news_data as [| | | | |[|a articles]|]; try reflexivity.
  rewrite bind_lift.
  now destruct (map_result process_article (firstn 5 (a :: articles))).
Qed.

Lemma fetch_market_news_trace (e : env) (w : world) (t : trace) :
  snd (fetch_market_news e w t) = t
  \/ snd (fetch_market_news e w t)
     = t ++ [news_request (attr_value (FMP_API_KEY e))].
Proof.
  unfold fetch_market_news. rewrite try_catch_ret_trace.
  apply fetch_market_news_try_trace.
Qed.

(** X7. The news fetcher sends at most one request, and that request is the
    one to the news URL carrying the credential. *)
Theorem news_sends_at_most_one_request (e : env) (w : world) (t : trace) :
  snd (fetch_market_news e w t) = t
  \/ snd (fetch_market_news e w t)
     = t ++ [news_request (attr_value (FMP_API_KEY e))].
Proof. exact (fetch_market_news_trace e w t). Qed.

Lemma fetch_market_news_rejected (e : env) (w : world) (t : trace) (k : str)
    (resp : response) :
  FMP_API_KEY e = Some (PyStr k) ->
  k <> [] ->
  w t (news_request (PyStr k)) = inr resp ->
  ok resp = false ->
  fetch_market_news e w t
  = (inr (PyStr (news_error_text
                   (Exn ValueError
                        (u "HTTP " ++ dec (status resp) ++ u ": " ++ status_text resp
                         ++ status_hint (status resp))))),
     t ++ [news_request (PyStr k)]).
Proof.
  intros Hkey Hk Hw Hok.
  unfold fetch_market_news, try_catch, fetch_market_news_try, attr_set, attr_value.
  rewrite Hkey. assert (Ht : truthy (PyStr k) = true) by now destruct k.
  rewrite Ht. cbn [negb replace_arg].
  rewrite bind_lift. cbn [rret].
  rewrite bind_fetch, Hw, Hok. reflexivity.
Qed.

Lemma code_in_error_text (code : str) (st : Z) (text hint : str) :
  existsb (N.eqb 32%N) code = false ->
  code <> [] ->
  is_substring code (u "HTTP") = false ->
  is_substring code (dec st ++ u ":") = false ->
  is_substring code text = false ->
  is_substring code hint = false ->
  is_substring code (u "HTTP " ++ dec st ++ u ": " ++ text ++ 32%N :: hint) = false.
Proof.
  intros Hsp Hne H1 H2 H3 H4.
  replace (u "HTTP " ++ dec st ++ u ": " ++ text ++ 32%N :: hint)
    with (u "HTTP" ++ 32%N :: ((dec st ++ u ":") ++ 32%N :: (text ++ 32%N :: hint))).
  - rewrite !(is_substring_split 32%N code) by assumption.
    now rewrite H1, H2, H3, H4.
  - change (u "HTTP ") with (u "HTTP" ++ [32%N]).
    change (u ": ") with (u ":" ++ [32%N]).
    now rewrite <- !app_assoc.
Qed.

(** X8. When the news provider answers 403, 401 or 429 and the status text
    contains none of these three codes, the news fetcher returns the note
    of that status: access forbidden, invalid key, rate limit. *)
Theorem news_status_notes (e : env) (w : world) (t : trace) (k : str)
    (resp : response) (note : str) :
  FMP_API_KEY e = Some (PyStr k) ->
  k <> [] ->
  w t (news_request (PyStr k)) = inr resp ->
  status_note (status resp) = Some note ->
  no_status_code (status_text resp) = true ->
  fetch_market_news e w t = (inr (PyStr note), t ++ [news_request (PyStr k)]).
Proof.
  intros Hkey Hk Hw Hnote Hclean.
  unfold no_status_code in Hclean.
  apply andb_true_iff in Hclean as [Hclean H429].
  apply andb_true_iff in Hclean as [H403 H401].
  apply negb_true_iff in H403, H401, H429.
  assert (Hok : ok resp = false).
  { unfold ok, status_note in *.
    destruct (status resp =? 403) eqn:E1; [apply Z.eqb_eq in E1; now rewrite E1|].
    destruct (status resp =? 401) eqn:E2; [apply Z.eqb_eq in E2; now rewrite E2|].
    destruct (status resp =? 429) eqn:E3; [apply Z.eqb_eq in E3; now rewrite E3|].
    discriminate Hnote. }
  rewrite (fetch_market_news_rejected e w t k resp Hkey Hk Hw Hok).
  do 2 f_equal. unfold status_note in Hnote. unfold news_error_text. cbn [exn_str].
  destruct (status resp =? 403) eqn:E1.
  { apply Z.eqb_eq in E1. rewrite E1. injection Hnote as <-.
    replace (is_substring (u "403") _) with true; [reflexivity|].
    symmetry. apply is_substring_app_r. apply (is_substring_head (u "403")). }
  destruct (status resp =? 401) eqn:E2.
  { apply Z.eqb_eq in E2. rewrite E2. injection Hnote as <-.
    replace (is_substring (u "403") _) with false.
    - replace (is_substring (u "401") _) with true; [reflexivity|].
      symmetry. apply is_substring_app_r. apply (is_substring_head (u "401")).
    - symmetry.
      apply (code_in_error_text (u "403") 401 (status_text resp)
               (u "- Invalid API key. Please check your FMP_API_KEY configuration."));
        try reflexivity; [discriminate | assumption]. }
  destruct (status resp =? 429) eqn:E3; [|discriminate Hnote].
  apply Z.eqb_eq in E3. rewrite E3. injection Hnote as <-.
  replace (is_substring (u "403") _) with false.
  - replace (is_substring (u "401") _) with false.
    + replace (is_substring (u "429") _) with true; [reflexivity|].
      symmetry. apply is_substring_app_r. apply (is_substring_head (u "429")).
    + symmetry.
      apply (code_in_error_text (u "401") 429 (status_text resp)
               (u "- Rate limit exceeded. Please wait or upgrade your FMP plan."));
        try reflexivity; [discriminate | assumption].
  - symmetry.
    apply (code_in_error_text (u "403") 429 (status_text resp)
             (u "- Rate limit exceeded. Please wait or upgrade your FMP plan."));
      try reflexivity; [discriminate | assumption].
Qed.

Lemma map_result_fails {A B} (f : A -> result B) (l : list A) (a : A) :
  In a l -> (forall b, f a <> inr b) -> exists err, map_result f l = inl err.
Proof.
  induction l as [|x l IH]; [intros []|].
  intros [-> | Hin] Hf; simpl.
  - destruct (f a) as [err|b]; [now exists err | now destruct (Hf b)].
  - destruct (f x) as [err|b]; [now exists err|].
    destruct (IH Hin Hf) as [err ->]. now exists err.
Qed.

(** X9. One article among the first five that is not an object makes the
    whole news unavailable: the fetcher returns an unavailability string,
    not the records of the other articles. *)
Theorem malformed_article_drops_news (e : env) (w : world) (t : trace) (k : str)
    (resp : response) (articles : list pyval) (a : pyval) :
  FMP_API_KEY e = Some (PyStr k) ->
  k <> [] ->
  w t (news_request (PyStr k)) = inr resp ->
  ok resp = true ->
  body_json resp = inr (PyList articles) ->
  In a (firstn 5 articles) ->
  is_dict a = false ->
  exists s,
    fetch_market_news e w t = (inr (PyStr s), t ++ [news_request (PyStr k)])
    /\ is_substring (u "unavailable") s = true.
Proof.
  intros Hkey Hk Hw Hok Hjson Hin Hdict.
  destruct (map_result_fails process_article (firstn 5 articles) a Hin) as [err Herr].
  { intros b. destruct a; try discriminate; discriminate Hdict. }
  exists (news_error_text err). split; [|apply news_error_text_unavailable].
  unfold fetch_market_news, try_catch, fetch_market_news_try, attr_set, attr_value.
  rewrite Hkey. assert (Ht : truthy (PyStr k) = true) by now destruct k.
  rewrite Ht. cbn [negb replace_arg].
  rewrite bind_lift. cbn [rret].
  rewrite bind_fetch, Hw, Hok. cbn [negb].
  rewrite bind_lift, Hjson.
  destruct articles as [|a0 rest]; [destruct Hin|].
  cbv beta match. rewrite bind_lift. unfold pyval in *. rewrite Herr. reflexivity.
Qed.

(** ** Report notifier *)

Lemma bind_of {A B} (m : M A) (k : A -> M B) (w : world) (t t1 : trace) (a : A) :
  m w t = (inr a, t1) -> bind m k w t = k a w t1.
Proof. intros H. unfold bind. now rewrite H. Qed.

Lemma bind_raised {A B} (m : M A) (k : A -> M B) (w : world) (t t1 : trace) (err : exn) :
  m w t = (inl err, t1) -> bind m k w t = (inl err, t1).
Proof. intros H. unfold bind. now rewrite H. Qed.

Lemma send_email_report_outcome (e : env) (analysis : str) (md : dict)
    (w : world) (t : trace) :
  exists sent t',
    send_email_report e analysis md w t = (inr sent, t')
    /\ (email_configured e = false -> sent = false /\ t' = t)
    /\ (sent = true ->
        exists resp,
          w t (mailgun_request (attr_value (MAILGUN_DOMAIN e))) = inr resp
          /\ ok resp = true)
    /\ (t' = t
        \/ (t' = t ++ [mailgun_request (attr_value (MAILGUN_DOMAIN e))]
            /\ email_configured e = true)).
Proof.
  unfold send_email_report, email_configured.
  destruct (attr_set (MAILGUN_API_KEY e) && attr_set (MAILGUN_DOMAIN e)
            && attr_set (RECIPIENT_EMAIL e)); cbn [negb].
  2:{ exists false, t. repeat split; try discriminate. now left. }
  unfold try_catch. rewrite bind_lift.
  destruct (mover_lines md) as [err|movers].
  { exists false, t. repeat split; try discriminate. now left. }
  fold (mailgun_request (attr_value (MAILGUN_DOMAIN e))). rewrite bind_fetch.
  destruct (w t (mailgun_request (attr_value (MAILGUN_DOMAIN e)))) as [err|resp].
  { eexists false, _. split; [reflexivity|]. repeat split; try discriminate.
    right. now split. }
  destruct (ok resp) eqn:Hok.
  - eexists true, _. split; [reflexivity|]. repeat split; try discriminate.
    + intros _. now exists resp.
    + right. now split.
  - rewrite bind_lift. destruct (body_text resp);
      (eexists false, _; split; [reflexivity|]; repeat split; try discriminate;
       right; now split).
Qed.

(** X10. The report notifier never raises.  Without all three email
    credentials it returns False and sends nothing; it sends at most one
    request, the one to the mail provider's URL for the configured domain;
    and it returns True only when the provider answered that request with a
    status in 200-299. *)
Theorem email_report_never_raises (e : env) (analysis : str) (md : dict)
    (w : world) (t : trace) :
  exists sent t',
    send_email_report e analysis md w t = (inr sent, t')
    /\ (email_configured e = false -> sent = false /\ t' = t)
    /\ (sent = true ->
        exists resp,
          w t (mailgun_request (attr_value (MAILGUN_DOMAIN e))) = inr resp
          /\ ok resp = true)
    /\ (t' = t
        \/ (t' = t ++ [mailgun_request (attr_value (MAILGUN_DOMAIN e))]
            /\ email_configured e = true)).
Proof. exact (send_email_report_outcome e analysis md w t). Qed.

(** ** Orchestrator: after the quotes *)

Lemma valid_symbols_filter (keys : list str) (entries : list pyval) :
  Forall2 entry_shape keys entries ->
  valid_symbols (combine keys entries)
  = inr (map fst (filter (fun p => negb (has_error (snd p))) (combine keys entries))).
Proof.
  induction 1 as [|k d keys entries Hshape _ IH]; [reflexivity|].
  cbn [combine valid_symbols filter snd]. rewrite IH.
  destruct Hshape as [| error]; reflexivity.
Qed.

Lemma mapping_valid_symbols (w : world) (t t1 : trace) (md : dict) :
  fetch_market_data w t = (inr md, t1) ->
  valid_symbols md = inr (map fst (filter (fun p => negb (has_error (snd p))) md))
  /\ (List.length md = 6)%nat
  /\ t1 = t ++ map yahoo_request symbols.
Proof.
  intros Hrun. destruct (fetch_market_data_shape w t) as (entries & Hshape & Heq).
  rewrite Heq in Hrun.
  assert (Hmd : md = combine symbols entries) by congruence.
  assert (Ht1 : t1 = t ++ map yahoo_request symbols) by congruence.
  rewrite Hmd. split; [|split].
  - now apply valid_symbols_filter.
  - rewrite length_combine, <- (Forall2_length Hshape). reflexivity.
  - exact Ht1.
Qed.

Lemma filter_in_nonempty {A} (f : A -> bool) (l : list A) (a : A) :
  In a l -> f a = true -> filter f l <> [].
Proof.
  intros Hin Hf Hnil.
  assert (Ha : In a (filter f l)) by now apply filter_In.
  rewrite Hnil in Ha. destruct Ha.
Qed.

(** From the quotes to the request for analysis. *)
Lemma run_to_analysis (e : env) (w : world) (t : trace) (md : dict) (news : pyval)
    (t2 : trace) :
  reaches_analysis e w t md news t2 ->
  exists valid,
    List.length valid = count_valid md
    /\ (1 <= count_valid md <= 6)%nat
    /\ handle_stock_analysis_try e w t = request_analysis e md valid news w t2.
Proof.
  intros (Hkey & t1 & Hrun & (s & d & Hin & Hok) & Hnews).
  destruct (mapping_valid_symbols w t t1 md Hrun) as (Hvalid & Hlen & _).
  exists (map fst (filter (fun p => negb (has_error (snd p))) md)).
  assert (Hne : filter (fun p => negb (has_error (snd p))) md <> []).
  { apply (filter_in_nonempty _ _ (s, d) Hin). cbn [snd]. now rewrite Hok. }
  split; [apply length_map|]. split.
  - unfold count_valid.
    pose proof (filter_length_le (fun p => negb (has_error (snd p))) md).
    destruct (filter (fun p => negb (has_error (snd p))) md);
      [now destruct Hne | simpl in *; lia].
  - unfold handle_stock_analysis_try. rewrite Hkey. cbn [negb].
    rewrite (bind_of _ _ _ _ _ _ Hrun), bind_lift, Hvalid.
    destruct (filter (fun p => negb (has_error (snd p))) md) as [|p rest];
      [now destruct Hne|].
    cbn [map]. now rewrite (bind_of _ _ _ _ _ _ Hnews).
Qed.

Lemma handle_of_try (e : env) (w : world) (t : trace) :
  handle_stock_analysis e w t
  = match handle_stock_analysis_try e w t with
    | (inl error, t') => (inr (failure_result (exn_str error)), t')
    | (inr res, t') => (inr res, t')
    end.
Proof.
  unfold handle_stock_analysis, try_catch.
  now destruct (handle_stock_analysis_try e w t) as [[err|res] t'].
Qed.

Lemma request_analysis_rejected (e : env) (md : dict) (valid : list str)
    (news : pyval) (w : world) (t : trace) (resp : response) (text : str) :
  w t (swarms_request (build_task md news)) = inr resp ->
  ok resp = false ->
  body_text resp = inr text ->
  request_analysis e md valid news w t
  = (inl (Exn ValueError (u "Swarms API error: " ++ dec (status resp)
                          ++ u " - " ++ text)),
     t ++ [swarms_request (build_task md news)]).
Proof.
  intros Hw Hok Htext. unfold request_analysis.
  rewrite bind_fetch, Hw, Hok. cbn [negb]. now rewrite bind_lift, Htext.
Qed.

Lemma request_analysis_replied (e : env) (md : dict) (valid : list str)
    (news : pyval) (w : world) (t : trace) (resp : response) (reply : pyval) :
  w t (swarms_request (build_task md news)) = inr resp ->
  ok resp = true ->
  body_json resp = inr reply ->
  request_analysis e md valid news w t
  = build_result e md valid reply w (t ++ [swarms_request (build_task md news)]).
Proof.
  intros Hw Hok Hjson. unfold request_analysis.
  rewrite bind_fetch, Hw, Hok. cbn [negb]. now rewrite bind_lift, Hjson.
Qed.

Lemma reply_output_get (reply : pyval) :
  is_dict reply = true -> py_get reply (u "output") PyNone = inr (reply_output reply).
Proof.
  destruct reply as [| | | | | |kv]; try discriminate. intros _.
  unfold py_get, reply_output, field, rret. now destruct (lookup (u "output") kv).
Qed.

Lemma reply_output_item (reply : pyval) :
  truthy (reply_output reply) = true ->
  getitem_str reply (u "output") = inr (reply_output reply).
Proof.
  unfold reply_output, field. destruct reply as [| | | | | |kv]; try discriminate.
  unfold getitem_str. now destruct (lookup (u "output") kv).
Qed.

(** X11. When the AI service answers with a status outside 200-299, the run
    ends with [{success: False, error: 'Swarms API error: <status> - <body
    text>'}]; the request to the AI service is the last one it sent, so no
    email goes out. *)
Theorem rejected_analysis_fails_run (e : env) (w : world) (t t2 : trace) (md : dict)
    (news : pyval) (resp : response) (text : str) :
  reaches_analysis e w t md news t2 ->
  w t2 (swarms_request (build_task md news)) = inr resp ->
  ok resp = false ->
  body_text resp = inr text ->
  handle_stock_analysis e w t
  = (inr (failure_result (u "Swarms API error: " ++ dec (status resp)
                          ++ u " - " ++ text)),
     t2 ++ [swarms_request (build_task md news)]).
Proof.
  intros Hreach Hw Hok Htext.
  destruct (run_to_analysis e w t md news t2 Hreach) as (valid & _ & _ & Htry).
  rewrite handle_of_try, Htry.
  now rewrite (request_analysis_rejected e md valid news w t2 resp text Hw Hok Htext).
Qed.

(** X12. When the AI service answers 2xx with an object whose output is
    missing, None or empty, the run ends with [{success: False, error: 'No
    analysis output received from Swarms API'}] and sends nothing after the
    request to the AI service. *)
Theorem empty_output_fails_run (e : env) (w : world) (t t2 : trace) (md : dict)
    (news : pyval) (resp : response) (reply : pyval) :
  reaches_analysis e w t md news t2 ->
  w t2 (swarms_request (build_task md news)) = inr resp ->
  ok resp = true ->
  body_json resp = inr reply ->
  is_dict reply = true ->
  truthy (reply_output reply) = false ->
  handle_stock_analysis e w t
  = (inr (failure_result (u "No analysis output received from Swarms API")),
     t2 ++ [swarms_request (build_task md news)]).
Proof.
  intros Hreach Hw Hok Hjson Hdict Hout.
  destruct (run_to_analysis e w t md news t2 Hreach) as (valid & _ & _ & Htry).
  rewrite handle_of_try, Htry.
  rewrite (request_analysis_replied e md valid news w t2 resp reply Hw Hok Hjson).
  unfold build_result. rewrite bind_lift, (reply_output_get reply Hdict), Hout.
  reflexivity.
Qed.

Lemma build_result_finish (e : env) (md : dict) (valid : list str) (reply : pyval)
    (w : world) (t : trace) (c : pyval) (a : str) :
  truthy (reply_output reply) = true ->
  billing_cost reply = inr c ->
  format_analysis (reply_output reply) = inr a ->
  exists t',
    build_result e md valid reply w t
    = (inr (success_result a (Z.of_nat (List.length valid)) c), t').
Proof.
  intros Hout Hcost Hfmt.
  assert (Hdict : is_dict reply = true).
  { destruct reply; try discriminate Hout. reflexivity. }
  unfold build_result.
  rewrite bind_lift, (reply_output_get reply Hdict), Hout. cbn [negb].
  rewrite bind_lift, Hcost, bind_lift, (reply_output_item reply Hout).
  rewrite bind_lift, Hfmt.
  destruct (send_email_report_outcome e a md w t) as (sent & t' & Hsend & _).
  destruct (attr_set (MAILGUN_API_KEY e) && attr_set (MAILGUN_DOMAIN e)
            && attr_set (RECIPIENT_EMAIL e)).
  - rewrite (bind_of _ _ _ _ _ _ Hsend). now exists t'.
  - now exists t.
Qed.

(** X13. When the AI service answers 2xx with a non-empty string as output
    (and the cost lookup goes through), the run succeeds whatever the email
    configuration and whatever the mail provider does: the analysis is that
    string as it is, and symbolsAnalyzed is the number of entries of the
    quote mapping without an error marker. *)
Theorem text_output_is_reported (e : env) (w : world) (t t2 : trace) (md : dict)
    (news : pyval) (resp : response) (reply : pyval) (s : str) (c : pyval) :
  reaches_analysis e w t md news t2 ->
  w t2 (swarms_request (build_task md news)) = inr resp ->
  ok resp = true ->
  body_json resp = inr reply ->
  field (u "output") reply = Some (PyStr s) ->
  s <> [] ->
  billing_cost reply = inr c ->
  exists t3,
    handle_stock_analysis e w t
    = (inr (success_result s (Z.of_nat (count_valid md)) c), t3).
Proof.
  intros Hreach Hw Hok Hjson Hout Hs Hcost.
  destruct (run_to_analysis e w t md news t2 Hreach) as (valid & Hlen & _ & Htry).
  assert (Hro : reply_output reply = PyStr s) by (unfold reply_output; now rewrite Hout).
  assert (Htruthy : truthy (reply_output reply) = true)
    by (rewrite Hro; now destruct s).
  destruct (build_result_finish e md valid reply w
              (t2 ++ [swarms_request (build_task md news)]) c s Htruthy Hcost)
    as (t3 & Hres); [now rewrite Hro|].
  exists t3. rewrite handle_of_try, Htry.
  rewrite (request_analysis_replied e md valid news w t2 resp reply Hw Hok Hjson).
  now rewrite Hres, Hlen.
Qed.

Lemma build_result_raises (e : env) (md : dict) (valid : list str) (reply : pyval)
    (w : world) (t : trace) (err : exn) :
  truthy (reply_output reply) = true ->
  (billing_cost reply = inl err
   \/ (exists c, billing_cost reply = inr c)
      /\ format_analysis (reply_output reply) = inl err) ->
  build_result e md valid reply w t = (inl err, t).
Proof.
  intros Hout Hcase.
  assert (Hdict : is_dict reply = true).
  { destruct reply; try discriminate Hout. reflexivity. }
  unfold build_result.
  rewrite bind_lift, (reply_output_get reply Hdict), Hout. cbn [negb].
  rewrite bind_lift. destruct Hcase as [Hcost | [[c Hcost] Hfmt]]; rewrite Hcost.
  - reflexivity.
  - now rewrite bind_lift, (reply_output_item reply Hout), bind_lift, Hfmt.
Qed.

(** X14. A reply that has its output but whose usage is not an object (a
    null, say) fails the run: the cost lookup raises on it, the result is
    [{success: False, error: ...}], and nothing is sent after the request to
    the AI service. *)
Theorem non_object_usage_fails_run (e : env) (w : world) (t t2 : trace) (md : dict)
    (news : pyval) (resp : response) (reply usage : pyval) :
  reaches_analysis e w t md news t2 ->
  w t2 (swarms_request (build_task md news)) = inr resp ->
  ok resp = true ->
  body_json resp = inr reply ->
  truthy (reply_output reply) = true ->
  field (u "usage") reply = Some usage ->
  is_dict usage = false ->
  exists msg,
    handle_stock_analysis e w t
    = (inr (failure_result msg), t2 ++ [swarms_request (build_task md news)]).
Proof.
  intros Hreach Hw Hok Hjson Hout Husage Hdict.
  destruct (run_to_analysis e w t md news t2 Hreach) as (valid & _ & _ & Htry).
  assert (Hcost : exists err, billing_cost reply = inl err).
  { destruct reply as [| | | | | |kv]; try discriminate Husage.
    cbn [field] in Husage.
    cbv beta iota delta [billing_cost cost_at py_get rbind rret].
    rewrite Husage. destruct usage; try discriminate Hdict; now eexists. }
  destruct Hcost as [err Hcost]. exists (exn_str err).
  rewrite handle_of_try, Htry.
  rewrite (request_analysis_replied e md valid news w t2 resp reply Hw Hok Hjson).
  now rewrite (build_result_raises e md valid reply w _ err Hout (or_introl Hcost)).
Qed.

(** X15. A reply whose output is a list with an element that is not an
    object (a list of plain strings, say) fails the run: formatting raises
    on that element, and the result is [{success: False, error: ...}]. *)
Theorem non_object_agent_fails_run (e : env) (w : world) (t t2 : trace) (md : dict)
    (news : pyval) (resp : response) (reply : pyval) (agents : list pyval)
    (a c : pyval) :
  reaches_analysis e w t md news t2 ->
  w t2 (swarms_request (build_task md news)) = inr resp ->
  ok resp = true ->
  body_json resp = inr reply ->
  field (u "output") reply = Some (PyList agents) ->
  In a agents ->
  is_dict a = false ->
  billing_cost reply = inr c ->
  exists msg,
    handle_stock_analysis e w t
    = (inr (failure_result msg), t2 ++ [swarms_request (build_task md news)]).
Proof.
  intros Hreach Hw Hok Hjson Hout Hin Hdict Hcost.
  destruct (run_to_analysis e w t md news t2 Hreach) as (valid & _ & _ & Htry).
  assert (Hro : reply_output reply = PyList agents)
    by (unfold reply_output; now rewrite Hout).
  assert (Htruthy : truthy (reply_output reply) = true).
  { rewrite Hro. destruct agents; [destruct Hin | reflexivity]. }
  destruct (map_result_fails format_agent agents a Hin) as [err Herr].
  { intros b. destruct a; try discriminate; discriminate Hdict. }
  exists (exn_str err).
  rewrite handle_of_try, Htry.
  rewrite (request_analysis_replied e md valid news w t2 resp reply Hw Hok Hjson).
  rewrite (build_result_raises e md valid reply w _ err Htruthy); [reflexivity|].
  right. split; [now exists c|]. rewrite Hro. unfold format_analysis.
  unfold pyval in *. now rewrite Herr.
Qed.

(** ** Orchestrator: the shape of the result and of the trace *)

Lemma build_result_inr_shape (e : env) (md : dict) (valid : list str) (reply res : pyval)
    (w : world) (t t' : trace) :
  build_result e md valid reply w t = (inr res, t') ->
  exists a c, res = success_result a (Z.of_nat (List.length valid)) c.
Proof.
  unfold build_result. intros H.
  apply bind_inr in H as (output & t1 & _ & H).
  destruct (truthy output); cbn [negb] in H; [|discriminate H].
  apply bind_inr in H as (c & t2 & _ & H).
  apply bind_inr in H as (output' & t3 & _ & H).
  apply bind_inr in H as (formatted & t4 & _ & H).
  apply bind_inr in H as (sent & t5 & _ & H).
  injection H as <- _. now exists formatted, c.
Qed.

Lemma build_result_trace (e : env) (md : dict) (valid : list str) (reply : pyval)
    (w : world) (t : trace) :
  snd (build_result e md valid reply w t) = t
  \/ (snd (build_result e md valid reply w t)
      = t ++ [mailgun_request (attr_value (MAILGUN_DOMAIN e))]
      /\ email_configured e = true).
Proof.
  unfold build_result. rewrite bind_lift.
  destruct (py_get reply (u "output") PyNone) as [err|output]; [now left|].
  destruct (truthy output); cbn [negb]; [|now left].
  rewrite bind_lift. destruct (billing_cost reply) as [err|c]; [now left|].
  rewrite bind_lift. destruct (getitem_str reply (u "output")) as [err|out]; [now left|].
  rewrite bind_lift. destruct (format_analysis out) as [err|a]; [now left|].
  destruct (send_email_report_outcome e a md w t) as (sent & t' & Hsend & _ & _ & Ht').
  fold (email_configured e). destruct (email_configured e) eqn:Hcfg.
  - rewrite (bind_of _ _ _ _ _ _ Hsend). cbn [ret snd].
    destruct Ht' as [-> | [-> _]]; [now left | now right].
  - now left.
Qed.

Lemma request_analysis_trace_exact (e : env) (md : dict) (valid : list str)
    (news : pyval) (w : world) (t : trace) :
  exists m,
    snd (request_analysis e md valid news w t)
    = t ++ swarms_request (build_task md news) :: m
    /\ (m = []
        \/ (m = [mailgun_request (attr_value (MAILGUN_DOMAIN e))]
            /\ email_configured e = true)).
Proof.
  unfold request_analysis. rewrite bind_fetch.
  destruct (w t (swarms_request (build_task md news))) as [err|resp].
  { exists []. split; [reflexivity | now left]. }
  destruct (ok resp); cbn [negb].
  2:{ rewrite bind_lift. exists [].
      split; [now destruct (body_text resp) | now left]. }
  rewrite bind_lift. destruct (body_json resp) as [err|reply].
  { exists []. split; [reflexivity | now left]. }
  destruct (build_result_trace e md valid reply w
              (t ++ [swarms_request (build_task md news)])) as [H | [H Hcfg]].
  - exists []. split; [exact H | now left].
  - exists [mailgun_request (attr_value (MAILGUN_DOMAIN e))].
    split; [now rewrite H, <- app_assoc | now right].
Qed.

Lemma request_analysis_inr_shape (e : env) (md : dict) (valid : list str)
    (news res : pyval) (w : world) (t t' : trace) :
  request_analysis e md valid news w t = (inr res, t') ->
  exists a c, res = success_result a (Z.of_nat (List.length valid)) c.
Proof.
  unfold request_analysis. rewrite bind_fetch.
  destruct (w t (swarms_request (build_task md news))) as [err|resp];
    [discriminate|].
  destruct (ok resp); cbn [negb].
  2:{ rewrite bind_lift. destruct (body_text resp); discriminate. }
  rewrite bind_lift. destruct (body_json resp) as [err|reply]; [discriminate|].
  apply build_result_inr_shape.
Qed.

Lemma market_news_step_trace (e : env) (w : world) (t : trace) :
  snd (market_news_step e w t) = t
  \/ snd (market_news_step e w t)
     = t ++ [news_request (attr_value (FMP_API_KEY e))].
Proof.
  unfold market_news_step. rewrite try_catch_ret_trace.
  apply fetch_market_news_trace.
Qed.

(** With the credential set, a run either stops after the quotes or goes on
    to the request for analysis with one to six valid symbols. *)
Lemma handle_try_cases (e : env) (w : world) (t : trace) :
  attr_set (SWARMS_API_KEY e) = true ->
  handle_stock_analysis_try e w t
  = (inl (Exn ValueError (u "No valid market data retrieved")),
     t ++ map yahoo_request symbols)
  \/ exists md valid news t2,
       (1 <= List.length valid <= 6)%nat
       /\ (t2 = t ++ map yahoo_request symbols
           \/ t2 = (t ++ map yahoo_request symbols)
                   ++ [news_request (attr_value (FMP_API_KEY e))])
       /\ handle_stock_analysis_try e w t = request_analysis e md valid news w t2.
Proof.
  intros Hkey.
  destruct (fetch_market_data_shape w t) as (entries & _ & Hrun).
  set (md := combine symbols entries) in Hrun.
  destruct (mapping_valid_symbols w t _ md Hrun) as (Hvalid & Hlen & _).
  unfold handle_stock_analysis_try. rewrite Hkey. cbn [negb].
  rewrite (bind_of _ _ _ _ _ _ Hrun), bind_lift, Hvalid.
  pose proof (filter_length_le (fun p => negb (has_error (snd p))) md) as Hle.
  destruct (filter (fun p => negb (has_error (snd p))) md) as [|p rest]; [now left|].
  right. cbn [map].
  destruct (market_news_step_total e w (t ++ map yahoo_request symbols))
    as (news & t2 & Hnews).
  pose proof (market_news_step_trace e w (t ++ map yahoo_request symbols)) as Htr.
  rewrite Hnews in Htr. cbn [snd] in Htr.
  exists md, (fst p :: map fst rest), news, t2. split; [|split].
  - cbn [List.length] in *. rewrite length_map. lia.
  - exact Htr.
  - now rewrite (bind_of _ _ _ _ _ _ Hnews).
Qed.

(** X16. A run never raises, and its result has one of two shapes:
    [{success: False, error: <text>}], or [{success: True, analysis: <text>,
    symbolsAnalyzed: n, cost: <value>}] with n between 1 and 6. *)
Theorem run_result_shape (e : env) (w : world) (t : trace) :
  exists res t',
    handle_stock_analysis e w t = (inr res, t')
    /\ ((exists msg, res = failure_result msg)
        \/ (exists a n c, res = success_result a n c /\ 1 <= n <= 6)).
Proof.
  rewrite handle_of_try.
  destruct (attr_set (SWARMS_API_KEY e)) eqn:Hkey.
  - destruct (handle_try_cases e w t Hkey)
      as [-> | (md & valid & news & t2 & Hlen & _ & ->)].
    + eexists _, _. split; [reflexivity|]. left. now eexists.
    + destruct (request_analysis e md valid news w t2) as [[err|res] t'] eqn:Hreq.
      * eexists _, _. split; [reflexivity|]. left. now eexists.
      * exists res, t'. split; [reflexivity|]. right.
        apply request_analysis_inr_shape in Hreq as (a & c & ->).
        exists a, (Z.of_nat (List.length valid)), c. split; [reflexivity | lia].
  - unfold handle_stock_analysis_try. rewrite Hkey. cbn [negb].
    eexists _, _. split; [reflexivity|]. left. now eexists.
Qed.

Lemma handle_trace_structure (e : env) (w : world) (t : trace) :
  attr_set (SWARMS_API_KEY e) = true ->
  exists n a m,
    snd (handle_stock_analysis e w t)
    = t ++ map yahoo_request symbols ++ n ++ a ++ m
    /\ (n = [] \/ n = [news_request (attr_value (FMP_API_KEY e))])
    /\ (a = [] \/ exists task, a = [swarms_request task])
    /\ (m = []
        \/ (m = [mailgun_request (attr_value (MAILGUN_DOMAIN e))]
            /\ a <> [] /\ email_configured e = true)).
Proof.
  intros Hkey. unfold handle_stock_analysis. rewrite try_catch_ret_trace.
  destruct (handle_try_cases e w t Hkey)
    as [-> | (md & valid & news & t2 & _ & Ht2 & ->)].
  - exists [], [], []. cbn [snd]. rewrite !app_nil_r. repeat split; now left.
  - destruct (request_analysis_trace_exact e md valid news w t2) as (m & -> & Hm).
    assert (Hrest : m = []
                    \/ (m = [mailgun_request (attr_value (MAILGUN_DOMAIN e))]
                        /\ [swarms_request (build_task md news)] <> []
                        /\ email_configured e = true)).
    { destruct Hm as [-> | [-> Hcfg]]; [now left|].
      right. repeat split; [discriminate | assumption]. }
    destruct Ht2 as [-> | ->].
    + exists [], [swarms_request (build_task md news)], m.
      split; [now rewrite <- !app_assoc|].
      split; [now left|]. split; [right; now eexists | exact Hrest].
    + exists [news_request (attr_value (FMP_API_KEY e))],
             [swarms_request (build_task md news)], m.
      split; [now rewrite <- !app_assoc|].
      split; [now right|]. split; [right; now eexists | exact Hrest].
Qed.

(** X17. With the AI credential set, the requests of a run are, in this
    order: the six quote requests in symbol order, then at most one news
    request, then at most one request to the AI service, then at most one
    request to the mail provider, which is sent only after a request to the
    AI service and only when email is configured.  So a run sends at most
    nine requests. *)
Theorem run_request_order (e : env) (w : world) (t : trace) :
  attr_set (SWARMS_API_KEY e) = true ->
  exists n a m,
    snd (handle_stock_analysis e w t)
    = t ++ map yahoo_request symbols ++ n ++ a ++ m
    /\ (n = [] \/ n = [news_request (attr_value (FMP_API_KEY e))])
    /\ (a = [] \/ exists task, a = [swarms_request task])
    /\ (m = []
        \/ (m = [mailgun_request (attr_value (MAILGUN_DOMAIN e))]
            /\ a <> [] /\ email_configured e = true)).
Proof. exact (handle_trace_structure e w t). Qed.

(** X18. When one of the three email credentials is missing, None or empty,
    no run sends a request to the mail provider, whatever the upstream
    does. *)
Theorem unconfigured_email_is_never_contacted (e : env) (w : world) (t : trace) :
  email_configured e = false ->
  exists new,
    snd (handle_stock_analysis e w t) = t ++ new
    /\ existsb contacts_mailgun new = false.
Proof.
  intros Hcfg. destruct (attr_set (SWARMS_API_KEY e)) eqn:Hkey.
  - destruct (handle_trace_structure e w t Hkey) as (n & a & m & Htr & Hn & Ha & Hm).
    exists (map yahoo_request symbols ++ n ++ a ++ m). split; [exact Htr|].
    destruct Hm as [-> | [_ [_ Hyes]]]; [|congruence].
    rewrite !existsb_app.
    destruct Hn as [-> | ->]; destruct Ha as [-> | [task ->]]; reflexivity.
  - exists []. rewrite app_nil_r. split; [|reflexivity].
    unfold handle_stock_analysis. rewrite try_catch_ret_trace.
    unfold handle_stock_analysis_try. now rewrite Hkey.
Qed.

(** ** Request router: query strings and outbound calls *)

Lemma split_on_nonempty (sep : codepoint) (s : str) : split_on sep s <> [].
Proof.
  destruct s as [|c s]; simpl; [discriminate|].
  destruct (N.eqb c sep); [discriminate|].
  destruct (split_on sep s); discriminate.
Qed.

Lemma split_on_head_app (sep : codepoint) (a b : str) :
  hd [] (split_on sep (a ++ sep :: b)) = hd [] (split_on sep a).
Proof.
  induction a as [|c a IH]; simpl.
  - now rewrite N.eqb_refl.
  - destruct (N.eqb c sep); [reflexivity|].
    pose proof (split_on_nonempty sep (a ++ sep :: b)) as H1.
    pose proof (split_on_nonempty sep a) as H2.
    destruct (split_on sep (a ++ sep :: b)); [now destruct H1|].
    destruct (split_on sep a); [now destruct H2|].
    simpl in *. now rewrite IH.
Qed.

Lemma path_of_query (url q : str) :
  is_substring [slash] url = true ->
  path_of (url ++ question_mark :: q) = path_of url.
Proof.
  intros Hslash. unfold path_of.
  now rewrite (is_substring_app_l _ _ _ Hslash), Hslash, split_on_head_app.
Qed.

(** X19. The router ignores the query string: for a URL with a slash,
    appending [?] and any text gives the same response and the same outbound
    requests. *)
Theorem query_string_is_ignored (url q : str) (e : env) (w : world) (t : trace) :
  is_substring [slash] url = true ->
  on_fetch (url ++ question_mark :: q) e w t = on_fetch url e w t.
Proof.
  intros Hslash. unfold on_fetch. now rewrite (path_of_query url q Hslash).
Qed.

Lemma handle_stock_analysis_returns (e : env) (w : world) (t : trace) :
  exists res t', handle_stock_analysis e w t = (inr res, t').
Proof.
  rewrite handle_of_try.
  destruct (handle_stock_analysis_try e w t) as [[err|res] t']; now eexists _, _.
Qed.

(** X20. A manual trigger answers status 200 with the run's result under
    [result], also when the run failed; the 500 response is never produced.
    The requests it sends are those of the run. *)
Theorem trigger_answers_200 (url : str) (e : env) (w : world) (t : trace) :
  path_of url = u "trigger" ->
  exists res t',
    handle_stock_analysis e w t = (inr res, t')
    /\ on_fetch url e w t
       = (inr (HttpResponse
                 (json_dumps
                    (PyDict [(u "message", PyStr (u "Stock analysis triggered manually"));
                             (u "timestamp", PyStr (utcnow_isoformat ++ u "Z"));
                             (u "result", res)]))
                 200 json_headers), t').
Proof.
  intros Hpath.
  destruct (handle_stock_analysis_returns e w t) as (res & t' & Hrun).
  exists res, t'. split; [exact Hrun|].
  unfold on_fetch. rewrite Hpath.
  change (str_eqb (u "trigger") []) with false.
  change (str_eqb (u "trigger") (u "trigger")) with true. cbv beta iota.
  unfold try_catch. now rewrite (bind_of _ _ _ _ _ _ Hrun).
Qed.

(** X21. Only the trigger route calls out: for any other URL the router
    returns a response with status 200 or 404 and sends no request. *)
Theorem other_routes_send_nothing (url : str) (e : env) (w : world) (t : trace) :
  path_of url <> u "trigger" ->
  exists r,
    on_fetch url e w t = (inr r, t)
    /\ (http_status r = 200 \/ http_status r = 404).
Proof.
  intros Hpath. unfold on_fetch.
  destruct (str_eqb (path_of url) []); [eexists; split; [reflexivity | now left]|].
  destruct (str_eqb (path_of url) (u "trigger")) eqn:E1;
    [now apply str_eqb_eq in E1|].
  destruct (str_eqb (path_of url) (u "status"));
    eexists; (split; [reflexivity|]); [now left | now right].
Qed.

(** ** Quote fetcher: where the bar fields come from *)

Lemma find_last_close_latest (closes : list pyval) (n : nat) (i : Z) :
  find_last_close (PyList closes) n = inr i ->
  0 <= i ->
  exists c, latest_bar closes n (Z.to_nat i) c.
Proof.
  induction n as [|k IH]; cbn [find_last_close]; intros H Hi.
  - injection H as <-. lia.
  - destruct (truthy (PyList closes)) eqn:Htruthy; cbn [negb] in H.
    + destruct (getitem_int (PyList closes) (Z.of_nat k)) as [err|c] eqn:Hget;
        [discriminate H|].
      cbn [rbind] in H.
      assert (Hc : nth_error closes k = Some c).
      { unfold getitem_int, seq_index in Hget. unfold pyval in *.
        assert (Hneg : (Z.of_nat k <? 0) = false) by (apply Z.ltb_ge; lia).
        rewrite Hneg in Hget. cbn [andb] in Hget.
        destruct ((0 <=? Z.of_nat k) && (Z.of_nat k <? Z.of_nat (List.length closes)));
          [|discriminate Hget].
        rewrite Nat2Z.id in Hget.
        destruct (nth_error closes k); [|discriminate Hget].
        now injection Hget as <-. }
      destruct (is_none c) eqn:Hnone.
      * destruct (IH H Hi) as (c' & Hlt & Hat & Hsome & Hafter).
        exists c'. repeat split; try assumption; [lia|].
        intros j Hj. destruct (Nat.eq_dec j k) as [->|].
        -- apply is_none_true in Hnone. now subst c.
        -- apply Hafter. lia.
      * injection H as <-. rewrite Nat2Z.id. exists c.
        repeat split; try assumption; lia.
    + destruct (IH H Hi) as (c' & Hlt & Hat & Hsome & Hafter).
      destruct closes; [|discriminate Htruthy].
      now destruct (Z.to_nat i).
Qed.

Lemma bar_field_list (l : list pyval) (i : Z) (default v : pyval) :
  0 <= i ->
  bar_field (PyList l) i default = inr v ->
  v = nth (Z.to_nat i) l default.
Proof.
  intros Hi. unfold bar_field.
  destruct l as [|x l']; cbn [truthy].
  - intros H. injection H as <-. now destruct (Z.to_nat i).
  - cbn [py_len rbind rret]. set (l := x :: l').
    unfold getitem_int, seq_index. unfold pyval in *.
    destruct (i <? Z.of_nat (List.length l)) eqn:Hlt.
    + assert (Hin : (0 <=? i) = true) by now apply Z.leb_le.
      rewrite Hin. cbn [andb].
      destruct (nth_error l (Z.to_nat i)) as [y|] eqn:Hy; intros H;
        [|discriminate H].
      injection H as <-. symmetry. now apply nth_error_nth.
    + apply Z.ltb_ge in Hlt. intros H. injection H as <-.
      symmetry. apply nth_overflow. lia.
Qed.

Lemma getitem_int_first_dict (r : pyval) (kv : dict) :
  getitem_int r 0 = inr (PyDict kv) -> exists rest, r = PyList (PyDict kv :: rest).
Proof.
  destruct r as [| | | |s|l|kv']; try discriminate.
  - destruct s; discriminate.
  - destruct l as [|x rest]; [discriminate|].
    intros H. unfold getitem_int, seq_index in H. cbn in H.
    injection H as ->. now exists rest.
Qed.

Lemma py_get_array (kv : dict) (name : str) (arr : pyval) (l : list pyval) :
  py_get (PyDict kv) name (PyList []) = inr arr ->
  array_of name (PyDict kv) = Some l ->
  arr = PyList l.
Proof.
  intros H Harr. apply py_get_dict in H as (kv' & Hkv & ->).
  injection Hkv as <-. unfold array_of in Harr.
  destruct (lookup name kv) as [[| | | | |l'|]|]; try discriminate Harr;
    now injection Harr as <-.
Qed.

Lemma quote_of_chart_bars (symbol : str) (data d : pyval) :
  quote_of_chart symbol data = inr d -> bars_copied data d.
Proof.
  unfold quote_of_chart. intros H. rinv H. injection H as <-.
  match goal with
  | E : getitem_str data _ = inr ?c |- _ =>
      apply getitem_str_dict in E as (dkv & -> & Hchart)
  end.
  match goal with
  | E : getitem_str _ (u "result") = inr _ |- _ =>
      apply getitem_str_dict in E as (ckv & -> & Hres)
  end.
  match goal with
  | E : py_get ?r (u "meta") _ = inr _ |- _ =>
      pose proof (py_get_dict _ _ _ _ E) as (rkv & -> & _)
  end.
  match goal with
  | E : getitem_int _ 0 = inr (PyDict rkv) |- _ =>
      apply getitem_int_first_dict in E as (rs & ->)
  end.
  match goal with
  | E : py_get ?q (u "open") _ = inr _ |- _ =>
      pose proof (py_get_dict _ _ _ _ E) as (qkv & -> & _)
  end.
  match goal with
  | E : getitem_int _ 0 = inr (PyDict qkv) |- _ =>
      apply getitem_int_first_dict in E as (qs & ->)
  end.
  assert (Hq : truthy (PyDict qkv) = true).
  { match goal with
    | C : negb (truthy (PyDict qkv)) || _ = false |- _ =>
        apply orb_false_iff in C as [C _]; now apply negb_false_iff in C
    end. }
  assert (Hquote : chart_quote (PyDict dkv) = Some (PyDict qkv)).
  { unfold chart_quote, chart_result, field. rewrite Hchart, Hres.
    match goal with
    | E : py_get (PyDict rkv) (u "indicators") _ = inr ?ind |- _ =>
        apply py_get_dict in E as (rkv' & Hrkv & Hind); injection Hrkv as <-
    end.
    match goal with
    | E : py_get ?ind (u "quote") _ = inr _ |- _ =>
        apply py_get_dict in E as (ikv & Hikv & Hquotes)
    end.
    destruct (lookup (u "indicators") rkv) as [ind|].
    - subst ind. rewrite Hikv.
      destruct (lookup (u "quote") ikv) as [quotes|].
      + now rewrite <- Hquotes.
      + injection Hquotes as Hqkv _. rewrite Hqkv in Hq. discriminate Hq.
    - rewrite Hikv in Hind. injection Hind as ->. cbn in Hquotes.
      injection Hquotes as Hqkv _. rewrite Hqkv in Hq. discriminate Hq. }
  exists (PyDict rkv), (PyDict qkv). split; [|split; [exact Hquote|]].
  { unfold chart_result, field. now rewrite Hchart, Hres. }
  intros ts opens highs lows closes volumes Hts Hopens Hhighs Hlows Hcloses Hvolumes.
  repeat match goal with
  | E : py_get (PyDict ?kv) ?name (PyList []) = inr ?arr,
    A : array_of ?name (PyDict ?kv) = Some ?l |- _ =>
      pose proof (py_get_array kv name arr l E A); subst arr; clear E
  end.
  match goal with
  | E : py_len (PyList ts) = inr ?n |- _ => cbn in E; injection E as <-
  end.
  rewrite Nat2Z.id in *.
  match goal with
  | C : (?last <? 0) = false |- _ => apply Z.ltb_ge in C; rename C into Hlast
  end.
  match goal with
  | E : find_last_close (PyList closes) _ = inr ?last |- _ =>
      destruct (find_last_close_latest _ _ _ E Hlast) as (c & Hbar)
  end.
  repeat match goal with
  | E : bar_field (PyList _) _ _ = inr _ |- _ =>
      apply (bar_field_list _ _ _ _ Hlast) in E
  end.
  subst.
  match goal with
  | |- context [nth ?i closes (PyInt 0)] =>
      assert (Hclose : nth i closes (PyInt 0) = c)
        by (apply nth_error_nth; apply Hbar)
  end.
  rewrite Hclose.
  eexists _, c. split; [exact Hbar|]. repeat split; reflexivity.
Qed.

Lemma has_error_error_entry (error : exn) : has_error (error_entry error) = true.
Proof. reflexivity. Qed.

Lemma successful_entry_answer (s : str) (answer : result response) :
  has_error (entry_of_answer s answer) = false ->
  exists resp data,
    answer = inr resp
    /\ ok resp = true
    /\ body_json resp = inr data
    /\ quote_of_chart s data = inr (entry_of_answer s answer).
Proof.
  unfold entry_of_answer. destruct answer as [err|resp].
  { now rewrite has_error_error_entry. }
  destruct (ok resp) eqn:Hok; cbn [negb]; [|now rewrite has_error_error_entry].
  destruct (body_json resp) as [err|data] eqn:Hjson;
    [now rewrite has_error_error_entry|].
  destruct (quote_of_chart s data) as [err|q] eqn:Hq;
    [now rewrite has_error_error_entry|].
  intros _. exists resp, data. repeat split; assumption.
Qed.


(** ** Quote fetcher: where the price and the change come from *)

(** X22. When the meta of the payload gives a market price and a previous
    close, the quote's price is that market price and its change is the
    market price minus that previous close: the bars decide neither. *)
Theorem price_and_change_come_from_meta (symbol : str) (data q p pc : pyval) :
  quote_of_chart symbol data = inr q ->
  meta_market_price data = Some p ->
  meta_previous_close data = Some pc ->
  field (u "price") q = Some p
  /\ exists change,
       field (u "change") q = Some change /\ py_sub p pc = inr change.
Proof.
  unfold quote_of_chart. intros H Hp Hpc. rinv H. injection H as <-.
  match goal with
  | E : getitem_str data _ = inr ?c |- _ =>
      apply getitem_str_dict in E as (dkv & -> & Hchart)
  end.
  match goal with
  | E : getitem_str _ (u "result") = inr _ |- _ =>
      apply getitem_str_dict in E as (ckv & -> & Hres)
  end.
  unfold meta_previous_close, meta_market_price, chart_result, field in Hp, Hpc.
  rewrite Hchart, Hres in Hp, Hpc.
  match goal with
  | E : getitem_int ?l 0 = inr ?r |- _ =>
      destruct l as [| | | | |[|r0 rs]|]; try discriminate Hpc;
      unfold getitem_int, seq_index in E; cbn in E; injection E as <-
  end.
  match goal with
  | E : py_get r0 (u "meta") _ = inr _ |- _ =>
      apply py_get_dict in E as (rkv & -> & ->)
  end.
  destruct (lookup (u "meta") rkv) as [meta|]; [|discriminate Hpc].
  match goal with
  | E : py_get meta (u "previousClose") _ = inr _ |- _ =>
      apply py_get_dict in E as (mkv & -> & ->)
  end.
  match goal with
  | E : py_get (PyDict mkv) (u "regularMarketPrice") _ = inr _ |- _ =>
      apply py_get_dict in E as (mkv' & Hmkv & ->); injection Hmkv as <-
  end.
  rewrite Hp, Hpc in *.
  split; [reflexivity|]. eexists. split; [reflexivity | eassumption].
Qed.

End Theorems.

(** * The model on concrete inputs *)

#[local] Existing Instance reference_runtime.



Lemma missing_ai_key_fails_first_witness :
  handle_stock_analysis env_no_key world_spy_only []
  = (inr (PyDict [(u "success", PyBool false);
                  (u "error", PyStr (u "SWARMS_API_KEY is required"))]), []).
Proof.
  apply (missing_ai_key_fails_first env_no_key world_spy_only []).
  reflexivity.
Defined.

Lemma outage_fails_before_analysis_witness :
  exists new,
    handle_stock_analysis env_ai_only world_outage []
    = (inr (PyDict [(u "success", PyBool false);
                    (u "error", PyStr (u "No valid market data retrieved"))]),
       [] ++ new)
    /\ new = map yahoo_request symbols
    /\ existsb contacts_swarms new = false
    /\ existsb contacts_mailgun new = false.
Proof.
  apply (outage_fails_before_analysis env_ai_only world_outage []
           (map yahoo_request symbols)
           (combine symbols (repeat (error_entry network_lost) 6))).
  - reflexivity.
  - reflexivity.
  - intros s d Hin. simpl in Hin.
    repeat (destruct Hin as [Hin | Hin]; [injection Hin as <- <-; reflexivity|]).
    destruct Hin.
Defined.

Lemma unknown_segment_not_found_witness :
  on_fetch (u "https://example.com/health") env_no_key world_outage []
  = (inr (HttpResponse (u "Not Found") 404 []), []).
Proof.
  apply (unknown_segment_not_found (u "https://example.com/health")
           env_no_key world_outage []);
    vm_compute; discriminate.
Defined.

(** C6, as stated, fails: the path [/api/status] is none of [/], [/trigger]
    and [/status], and the router answers it as it answers [/status], with
    status 200. *)
Lemma nested_status_path_is_served :
  ~ (request_path (u "https://example.com/api/status") <> u "/" ->
     request_path (u "https://example.com/api/status") <> u "/trigger" ->
     request_path (u "https://example.com/api/status") <> u "/status" ->
     fst (on_fetch (u "https://example.com/api/status") env_no_key world_outage [])
     = inr (HttpResponse (u "Not Found") 404 [])).
Proof.
  intros H.
  assert (Hrun : fst (on_fetch (u "https://example.com/api/status")
                        env_no_key world_outage [])
                 = inr (HttpResponse (u "Not Found") 404 [])).
  { apply H; vm_compute; discriminate. }
  vm_compute in Hrun. discriminate Hrun.
Qed.

Lemma news_text_bounded_witness :
  exists resp articles,
    world_news_ok [] (news_request (attr_value (FMP_API_KEY env_ai_news))) = inr resp
    /\ body_json resp = inr (PyList articles)
    /\ Forall2 record_of_article (firstn 5 articles) news_records.
Proof.
  apply (news_text_bounded env_ai_news world_news_ok []
           [news_request (PyStr (u "fmp-test"))] news_records).
  reflexivity.
Defined.

Lemma reported_cost_prefers_truthy_usage_witness :
  field (u "cost") (result_with (PyInt 7)) = Some (PyInt 7)
  /\ field (u "cost") (result_with (PyInt 5)) = Some (PyInt 5).
Proof.
  split.
  - apply (proj1 (reported_cost_prefers_truthy_usage env_ai_only [] [u "SPY"]
                    both_costs_reply (result_with (PyInt 7))
                    world_outage [] [] eq_refl) (PyInt 7)); reflexivity.
  - apply (proj2 (reported_cost_prefers_truthy_usage env_ai_only [] [u "SPY"]
                    zero_cost_reply (result_with (PyInt 5))
                    world_outage [] [] eq_refl) (PyInt 5)); reflexivity.
Defined.

(** C9, as stated, fails: the reply carries a cost in both places, 0 under
    usage and 5 under metadata, and the run reports 5. *)
Lemma zero_usage_cost_is_skipped :
  ~ (forall c1 c2,
       carried_cost (u "usage") zero_cost_reply = Some c1 ->
       carried_cost (u "metadata") zero_cost_reply = Some c2 ->
       reported_cost (handle_stock_analysis env_ai_only world_zero_cost []) = Some c1).
Proof.
  intros H. specialize (H (PyInt 0) (PyInt 5) eq_refl eq_refl).
  vm_compute in H. discriminate H.
Qed.



Lemma news_directive_follows_news_witness :
  (is_list news_500_note = true
   /\ news_unavailable news_500_note = false
   /\ is_substring news_phrase (build_task spy_only_mapping news_500_note) = true)
  \/ (exists s,
        news_500_note = PyStr s
        /\ news_unavailable news_500_note = true
        /\ is_substring (u "NEWS STATUS: " ++ s)
             (build_task spy_only_mapping news_500_note) = true
        /\ is_substring degraded_phrase
             (build_task spy_only_mapping news_500_note) = true
        /\ is_substring news_phrase (build_task spy_only_mapping news_500_note)
           = is_substring news_phrase (json_dumps_indent2 (PyDict spy_only_mapping))
             || is_substring news_phrase s).
Proof.
  apply (news_directive_follows_news env_ai_news world_news_500
           (map yahoo_request symbols)
           (map yahoo_request symbols ++ [news_request (PyStr (u "fmp-test"))])
           spy_only_mapping news_500_note).
  reflexivity.
Defined.

(** C7, as stated, fails: the news provider answers 500 with a reason
    phrase that reads "incorporating news catalysts"; the news is the
    unavailability string, and the task sent to the AI service contains the
    phrase, inside its NEWS STATUS line. *)
Lemma phrase_sent_without_news :
  ~ (forall news task,
       fst (market_news_step env_ai_news world_news_500 (map yahoo_request symbols))
       = inr news ->
       In (swarms_request task)
          (snd (handle_stock_analysis env_ai_news world_news_500 [])) ->
       (is_substring news_phrase task = true <-> news_unavailable news = false)).
Proof.
  intros H.
  specialize (H news_500_note (build_task spy_only_mapping news_500_note) eq_refl).
  assert (Hsent : In (swarms_request (build_task spy_only_mapping news_500_note))
                     (snd (handle_stock_analysis env_ai_news world_news_500 []))).
  { do 7 right. left. reflexivity. }
  apply H in Hsent as [Hto _].
  assert (Hin : is_substring news_phrase (build_task spy_only_mapping news_500_note) = true)
    by reflexivity.
  apply Hto in Hin. vm_compute in Hin. discriminate Hin.
Qed.

(** ** Further properties on concrete inputs *)

Ltac reaches_with_spy :=
  split; [reflexivity|];
  exists (map yahoo_request symbols); split; [reflexivity|];
  split; [exists (u "SPY"), spy_quote; split; [left; reflexivity | reflexivity]
         | reflexivity].

Lemma entry_depends_on_own_answer_witness :
  lookup (u "QQQ") spy_only_mapping
  = Some (entry_of_answer (u "QQQ")
            (world_spy_only ([] ++ map yahoo_request (firstn 1 symbols))
               (yahoo_request (u "QQQ")))).
Proof.
  apply (entry_depends_on_own_answer world_spy_only [] spy_only_mapping 1 (u "QQQ"));
    reflexivity.
Defined.

Lemma http_failure_entry_witness :
  lookup (u "SPY")
    (combine symbols (error_entry (http_error spy_not_found)
                      :: repeat (error_entry network_lost) 5))
  = Some (PyDict [(u "error",
                   PyStr (u "Failed to fetch data: HTTP " ++ dec (status spy_not_found)
                          ++ u ": " ++ status_text spy_not_found))]).
Proof.
  apply (http_failure_entry world_spy_404 [] _ 0 (u "SPY") spy_not_found);
    reflexivity.
Defined.

Lemma last_close_is_latest_witness :
  exists i,
    find_last_close (PyList gapped_closes) 4 = inr i
    /\ ((i = -1
         /\ forall j, (j < 4)%nat ->
              nth_error gapped_closes j = Some PyNone)
        \/ (0 <= i < Z.of_nat 4
            /\ (exists c,
                  nth_error gapped_closes (Z.to_nat i) = Some c
                  /\ is_none c = false)
            /\ forall j, (Z.to_nat i < j < 4)%nat ->
                 nth_error gapped_closes j = Some PyNone)).
Proof.
  apply (last_close_is_latest gapped_closes 4).
  simpl. lia.
Defined.

Lemma short_close_array_fails_witness :
  exists msg, find_last_close (PyList one_close) 2 = inl (Exn IndexError msg).
Proof.
  apply (short_close_array_fails one_close 2); [discriminate | simpl; lia].
Defined.

Lemma zero_previous_close_gives_zero_percent_witness :
  is_number (PyInt 0) = true
  /\ field (u "change_percent") zero_previous_quote = Some (PyInt 0).
Proof.
  apply (zero_previous_close_gives_zero_percent (u "SPY") zero_previous_chart
           zero_previous_quote (PyInt 0));
    reflexivity.
Defined.

Lemma news_needs_credential_witness :
  fetch_market_news env_ai_only world_outage []
  = (inr (PyStr (u "Market news unavailable: FMP_API_KEY not configured. Sign up at https://financialmodelingprep.com/developer/docs")),
     []).
Proof.
  apply (news_needs_credential env_ai_only world_outage []). reflexivity.
Defined.

Lemma news_status_notes_witness :
  fetch_market_news env_ai_news world_news_403 []
  = (inr (PyStr forbidden_note), [] ++ [news_request (PyStr (u "fmp-test"))]).
Proof.
  apply (news_status_notes env_ai_news world_news_403 [] (u "fmp-test")
           news_forbidden forbidden_note);
    [reflexivity | discriminate | reflexivity | reflexivity | reflexivity].
Defined.

Lemma malformed_article_drops_news_witness :
  exists s,
    fetch_market_news env_ai_news world_news_malformed []
    = (inr (PyStr s), [] ++ [news_request (PyStr (u "fmp-test"))])
    /\ is_substring (u "unavailable") s = true.
Proof.
  apply (malformed_article_drops_news env_ai_news world_news_malformed []
           (u "fmp-test") malformed_news [short_article; PyStr (u "oops")]
           (PyStr (u "oops")));
    [reflexivity | discriminate | reflexivity | reflexivity | reflexivity
    | right; left; reflexivity | reflexivity].
Defined.

Lemma rejected_analysis_fails_run_witness :
  handle_stock_analysis env_ai_only (world_ai ai_overloaded) []
  = (inr (failure_result (u "Swarms API error: " ++ dec (status ai_overloaded)
                          ++ u " - " ++ u "overloaded")),
     map yahoo_request symbols
     ++ [swarms_request (build_task spy_only_mapping news_not_configured)]).
Proof.
  apply (rejected_analysis_fails_run env_ai_only (world_ai ai_overloaded) []
           (map yahoo_request symbols) spy_only_mapping news_not_configured
           ai_overloaded (u "overloaded"));
    [reaches_with_spy | reflexivity | reflexivity | reflexivity].
Defined.

Lemma empty_output_fails_run_witness :
  handle_stock_analysis env_ai_only (world_ai (json_response empty_output_reply)) []
  = (inr (failure_result (u "No analysis output received from Swarms API")),
     map yahoo_request symbols
     ++ [swarms_request (build_task spy_only_mapping news_not_configured)]).
Proof.
  apply (empty_output_fails_run env_ai_only
           (world_ai (json_response empty_output_reply)) []
           (map yahoo_request symbols) spy_only_mapping news_not_configured
           (json_response empty_output_reply) empty_output_reply);
    [reaches_with_spy | reflexivity | reflexivity | reflexivity | reflexivity
    | reflexivity].
Defined.

Lemma text_output_is_reported_witness :
  exists t3,
    handle_stock_analysis env_ai_only world_spy_only []
    = (inr (success_result (u "plain narrative")
              (Z.of_nat (count_valid spy_only_mapping)) PyNone), t3).
Proof.
  apply (text_output_is_reported env_ai_only world_spy_only []
           (map yahoo_request symbols) spy_only_mapping news_not_configured
           (json_response analysis_reply) analysis_reply (u "plain narrative") PyNone);
    [reaches_with_spy | reflexivity | reflexivity | reflexivity | reflexivity
    | discriminate | reflexivity].
Defined.

Lemma non_object_usage_fails_run_witness :
  exists msg,
    handle_stock_analysis env_ai_only (world_ai (json_response null_usage_reply)) []
    = (inr (failure_result msg),
       map yahoo_request symbols
       ++ [swarms_request (build_task spy_only_mapping news_not_configured)]).
Proof.
  apply (non_object_usage_fails_run env_ai_only
           (world_ai (json_response null_usage_reply)) []
           (map yahoo_request symbols) spy_only_mapping news_not_configured
           (json_response null_usage_reply) null_usage_reply PyNone);
    [reaches_with_spy | reflexivity | reflexivity | reflexivity | reflexivity
    | reflexivity | reflexivity].
Defined.

Lemma non_object_agent_fails_run_witness :
  exists msg,
    handle_stock_analysis env_ai_only (world_ai (json_response text_agents_reply)) []
    = (inr (failure_result msg),
       map yahoo_request symbols
       ++ [swarms_request (build_task spy_only_mapping news_not_configured)]).
Proof.
  apply (non_object_agent_fails_run env_ai_only
           (world_ai (json_response text_agents_reply)) []
           (map yahoo_request symbols) spy_only_mapping news_not_configured
           (json_response text_agents_reply) text_agents_reply
           [PyStr (u "plain narrative")] (PyStr (u "plain narrative")) PyNone);
    [reaches_with_spy | reflexivity | reflexivity | reflexivity | reflexivity
    | left; reflexivity | reflexivity | reflexivity].
Defined.

Lemma run_request_order_witness :
  exists n a m,
    snd (handle_stock_analysis env_ai_only world_spy_only [])
    = [] ++ map yahoo_request symbols ++ n ++ a ++ m
    /\ (n = [] \/ n = [news_request (attr_value (FMP_API_KEY env_ai_only))])
    /\ (a = [] \/ exists task, a = [swarms_request task])
    /\ (m = []
        \/ (m = [mailgun_request (attr_value (MAILGUN_DOMAIN env_ai_only))]
            /\ a <> [] /\ email_configured env_ai_only = true)).
Proof.
  apply (run_request_order env_ai_only world_spy_only []). reflexivity.
Defined.

Lemma unconfigured_email_is_never_contacted_witness :
  exists new,
    snd (handle_stock_analysis env_ai_only world_spy_only []) = [] ++ new
    /\ existsb contacts_mailgun new = false.
Proof.
  apply (unconfigured_email_is_never_contacted env_ai_only world_spy_only []).
  reflexivity.
Defined.

Lemma query_string_is_ignored_witness :
  on_fetch (u "https://example.com/status" ++ question_mark :: u "verbose=1")
    env_no_key world_outage []
  = on_fetch (u "https://example.com/status") env_no_key world_outage [].
Proof.
  apply (query_string_is_ignored (u "https://example.com/status") (u "verbose=1")
           env_no_key world_outage []).
  reflexivity.
Defined.

Lemma trigger_answers_200_witness :
  exists res t',
    handle_stock_analysis env_ai_only world_outage [] = (inr res, t')
    /\ on_fetch (u "https://example.com/trigger") env_ai_only world_outage []
       = (inr (HttpResponse
                 (json_dumps
                    (PyDict [(u "message", PyStr (u "Stock analysis triggered manually"));
                             (u "timestamp", PyStr (utcnow_isoformat ++ u "Z"));
                             (u "result", res)]))
                 200 json_headers), t').
Proof.
  apply (trigger_answers_200 (u "https://example.com/trigger") env_ai_only
           world_outage []).
  reflexivity.
Defined.

Lemma other_routes_send_nothing_witness :
  exists r,
    on_fetch (u "https://example.com/status") env_no_key world_outage [] = (inr r, [])
    /\ (http_status r = 200 \/ http_status r = 404).
Proof.
  apply (other_routes_send_nothing (u "https://example.com/status") env_no_key
           world_outage []).
  vm_compute. discriminate.
Defined.

Lemma price_and_change_come_from_meta_witness :
  field (u "price") spy_quote = Some (PyFloat 10025)
  /\ exists change,
       field (u "change") spy_quote = Some change
       /\ py_sub (PyFloat 10025) (PyFloat 9900) = inr change.
Proof.
  apply (price_and_change_come_from_meta (u "SPY") good_chart spy_quote
           (PyFloat 10025) (PyFloat 9900));
    reflexivity.
Defined.



(** The report notifier on a mapping whose change_percent is the text 3.5:
    the text is parsed, the message is sent and the provider accepts it. *)
Example text_percent_is_parsed :
  send_email_report env_mail (u "analysis") text_percent_mapping world_mail []
  = (inr true, [mailgun_request (PyStr (u "mg.example.com"))]).
Proof. reflexivity. Qed.
